(** * RCM system: claims lifecycle and remittance reconciliation

    A shallow embedding of the remittance (ERA) processor
    [services/era-processor.js], the payment routes and the claim
    routes ([routes/denials.js], [routes/claims.js]), together with the
    properties of the specification that concern them.

    Conventions of the embedding.
    - Money stored in a [DECIMAL(_,2)] column is an integer number of
      cents ([Z]).  A JavaScript number is [Fin c] (c cents) or [NaN].
    - [undefined] is [None]; an array read [a[i]] is [nth_error a i].
    - Strings are [string]; the separators the code splits on are ASCII.
    - Every [new Date()] of one request reads the same instant [now]. *)

From Stdlib Require Import ZArith List String Ascii Bool Lia DecimalString.
Import ListNotations.
Local Open Scope string_scope.
Local Open Scope Z_scope.

(* ------------------------------------------------------------------ *)
(** ** JavaScript values and string primitives                         *)
(* ------------------------------------------------------------------ *)

Module Js.

(** A JavaScript number holding an amount of money. *)
Inductive number : Type :=
| NaN
| Fin (cents : Z).

(** [x > 0] *)
Definition gt_zero (x : number) : bool :=
  match x with
  | NaN => false
  | Fin c => 0 <? c
  end.

(** [s.split(sep)] for a one-character separator: never empty. *)
Fixpoint split (sep : ascii) (s : string) : list string :=
  match s with
  | EmptyString => [EmptyString]
  | String c rest =>
      if Ascii.eqb c sep then EmptyString :: split sep rest
      else match split sep rest with
           | [] => [String c EmptyString]
           | w :: ws => String c w :: ws
           end
  end.

(** The text a template literal [`${v}`] prints for a possibly
    undefined string. *)
Definition template (v : option string) : string :=
  match v with
  | Some s => s
  | None => "undefined"
  end.

(** [v === lit] for a possibly undefined string [v]. *)
Definition strict_eq (v : option string) (lit : string) : bool :=
  match v with
  | Some s => String.eqb s lit
  | None => false
  end.

(** [list.includes(v)] on an array of string literals. *)
Definition includes (l : list string) (v : option string) : bool :=
  existsb (strict_eq v) l.

(** [table[key]] on an object literal, read as a finite map on the keys
    the literal lists; a key that is [undefined] is the text
    "undefined". *)
Fixpoint lookup {A : Type} (table : list (string * A)) (key : string)
  : option A :=
  match table with
  | [] => None
  | (k, v) :: rest => if String.eqb k key then Some v else lookup rest key
  end.

Definition get {A : Type} (table : list (string * A)) (key : option string)
  : option A :=
  lookup table (template key).

(** A [Date]: a calendar day and the time within it. *)
Record Date : Type := mkDate { day : Z; time_of_day : Z }.

(** [d.setDate(d.getDate() + n)] *)
Definition addDays (d : Date) (n : Z) : Date :=
  mkDate (day d + n) (time_of_day d).

Definition LF : ascii := Ascii.ascii_of_nat 10.
Definition STAR : ascii := "*"%char.

End Js.

(* ------------------------------------------------------------------ *)
(** ** The database: tables of [scripts/01-create-rcm-database.sql]    *)
(* ------------------------------------------------------------------ *)

Module Store.
Import Js.

Inductive ClaimStatus : Type :=
| DRAFT | READY | SUBMITTED | ACCEPTED | REJECTED | PAID | DENIED
| APPEALED | CLOSED.

Inductive PaymentType : Type := INSURANCE | PATIENT | ADJUSTMENT | REFUND.

Inductive PaymentMethod : Type := CHECK | EFT | CREDIT_CARD | CASH | ERA.

Inductive ProcessingStatus : Type := RECEIVED | PROCESSING | POSTED | ERROR.

Inductive DenialCategory : Type :=
| TECHNICAL | CLINICAL | AUTHORIZATION | ELIGIBILITY | DUPLICATE | OTHER.

Inductive Priority : Type := LOW | MEDIUM | HIGH | URGENT.

Inductive ResolutionStatus : Type :=
| OPEN | IN_PROGRESS | APPEALED_DENIAL | CORRECTED | WRITTEN_OFF | RESOLVED.

Inductive ClaimType : Type := PROFESSIONAL | INSTITUTIONAL | DENTAL | VISION.

Definition is_draft_or_ready (s : ClaimStatus) : bool :=
  match s with
  | DRAFT | READY => true
  | _ => false
  end.

Definition payment_method_is_ERA (m : PaymentMethod) : bool :=
  match m with
  | ERA => true
  | _ => false
  end.

(** Ids are [INT AUTO_INCREMENT] keys.  A user id is positive, so that
    [!posted_by] holds exactly when the column is NULL. *)
Definition user_id : Type := positive.

(** Table [claims] (SQL alias [c]). *)
Record Claim : Type := mkClaim {
  c_id : Z;
  c_claim_number : string;
  c_patient_id : Z;
  c_primary_insurance_id : Z;
  c_secondary_insurance_id : option Z;
  c_provider_id : option Z;
  c_facility_id : option Z;
  c_claim_type : ClaimType;
  c_service_date_from : Z;
  c_service_date_to : Z;
  c_total_charges : Z;
  c_total_paid : number;
  c_patient_responsibility : number;
  c_claim_status : ClaimStatus;
  c_submission_date : option Date;
  c_clearinghouse_id : option string;
  c_clearinghouse_status : option string;
  c_primary_diagnosis_code : option string;
  c_admission_date : option Z;
  c_discharge_date : option Z;
  c_place_of_service : option string;
  c_billing_provider_npi : option string;
  c_rendering_provider_npi : option string;
  c_created_by : option user_id;
  c_updated_by : option user_id
}.

(** One validated entry of [line_items] in a claim request. *)
Record LineItem : Type := mkLineItem {
  line_number : Z;
  procedure_code : option string;
  modifier1 : option string;
  modifier2 : option string;
  modifier3 : option string;
  modifier4 : option string;
  diagnosis_code_1 : option string;
  diagnosis_code_2 : option string;
  diagnosis_code_3 : option string;
  diagnosis_code_4 : option string;
  service_date : option Z;
  units : Z;
  charge_amount : Z;
  li_place_of_service : option string;
  li_rendering_provider_npi : option string
}.

(** Table [claim_line_items]: the inserted row is [{claim_id, ...lineItem}]. *)
Record ClaimLineItem : Type := mkClaimLineItem {
  cli_id : Z;
  cli_claim_id : Z;
  cli_item : LineItem
}.

(** Table [payment_postings] (SQL alias [pp]). *)
Record PaymentPosting : Type := mkPaymentPosting {
  pp_id : Z;
  pp_claim_id : Z;
  pp_era_id : option Z;
  pp_payment_type : PaymentType;
  pp_payment_method : PaymentMethod;
  pp_payment_amount : Z;
  pp_payment_date : Date;
  pp_check_number : option string;
  pp_reference_number : option string;
  pp_payer_name : option string;
  pp_adjustment_reason_code : option string;
  pp_adjustment_reason_description : option string;
  pp_posted_by : option user_id;
  pp_posted_at : Date
}.

(** Table [eras] (SQL alias [e]). *)
Record Era : Type := mkEra {
  e_id : Z;
  e_era_number : option string;
  e_payer_id : string;
  e_payer_name : option string;
  e_check_number : string;
  e_check_date : option string;
  e_check_amount : number;
  e_era_file_path : string;
  e_processing_status : ProcessingStatus;
  e_processed_at : option Date
}.

(** Table [era_claim_details] (SQL alias [ecd]). *)
Record EraClaimDetail : Type := mkEraClaimDetail {
  ecd_id : Z;
  ecd_era_id : Z;
  ecd_claim_id : option Z;
  ecd_claim_number : option string;
  ecd_patient_name : option string;
  ecd_service_date_from : option (option string);
  ecd_service_date_to : option (option string);
  ecd_total_charge_amount : number;
  ecd_total_paid_amount : number;
  ecd_patient_responsibility : number;
  ecd_claim_status_code : option string;
  ecd_claim_status_description : string
}.

(** Table [denials]. *)
Record Denial : Type := mkDenial {
  d_id : Z;
  d_claim_id : Z;
  d_denial_date : Date;
  d_denial_reason_code : option string;
  d_denial_reason_description : string;
  d_denial_category : DenialCategory;
  d_priority : Priority;
  d_resolution_status : ResolutionStatus;
  d_appeal_deadline : Date;
  d_follow_up_date : Date
}.

(** Tables [patients] (p), [patient_insurance] (pi) and
    [insurance_providers] (ip), as far as claim submission reads them. *)
Record Patient : Type := mkPatient {
  p_id : Z;
  p_first_name : option string;
  p_last_name : option string;
  p_date_of_birth : option Z;
  p_gender : option string
}.

Record PatientInsurance : Type := mkPatientInsurance {
  pi_id : Z;
  pi_policy_number_encrypted : option string;
  pi_insurance_provider_id : Z
}.

Record InsuranceProvider : Type := mkInsuranceProvider {
  ip_id : Z;
  ip_payer_id : option string
}.

(** Modelled from the spec: the storage layer [lib/database] is not among
    the sources.  A table is its rows, in insertion order, with the
    AUTO_INCREMENT counter of the schema; [create] returns the new id,
    [findById]/[findOne] the first matching row or null, [update] changes
    the rows with the id, and a transaction commits all its writes. *)
Record table (A : Type) : Type := mkTable {
  rows : list A;
  auto_increment : Z
}.
Arguments mkTable {A} _ _.
Arguments rows {A} _.
Arguments auto_increment {A} _.

(** Modelled from the spec: [create(entity, fields)], and [INSERT] on a
    connection; the new row takes the counter as its id ([insertId]). *)
Definition insert {A : Type} (mk : Z -> A) (t : table A) : Z * table A :=
  (auto_increment t,
   mkTable (rows t ++ [mk (auto_increment t)]) (auto_increment t + 1)).

(** Modelled from the spec: [update(entity, id, fields)], and
    [UPDATE ... WHERE id = ?] on a connection. *)
Definition update_where {A : Type} (id_of : A -> Z) (id : Z) (f : A -> A)
  (t : table A) : table A :=
  mkTable (map (fun r => if id_of r =? id then f r else r) (rows t))
          (auto_increment t).

(** Modelled from the spec: [DELETE ... WHERE key = ?] on a connection. *)
Definition delete_where {A : Type} (key_of : A -> Z) (key : Z)
  (t : table A) : table A :=
  mkTable (filter (fun r => negb (key_of r =? key)) (rows t))
          (auto_increment t).

(** Modelled from the spec: [findById(entity, id)], and the first row of
    [SELECT ... WHERE id = ?]. *)
Definition find_by {A : Type} (id_of : A -> Z) (id : Z) (t : table A)
  : option A :=
  find (fun r => id_of r =? id) (rows t).

Record db : Type := mkDb {
  claims : table Claim;
  claim_line_items : table ClaimLineItem;
  payment_postings : table PaymentPosting;
  eras : table Era;
  era_claim_details : table EraClaimDetail;
  denials : table Denial;
  system_settings : list (string * option string);
  patients : list Patient;
  patient_insurance : list PatientInsurance;
  insurance_providers : list InsuranceProvider
}.

Definition set_claims (t : table Claim) (s : db) : db :=
  mkDb t (claim_line_items s) (payment_postings s) (eras s)
       (era_claim_details s) (denials s) (system_settings s) (patients s)
       (patient_insurance s) (insurance_providers s).

Definition set_claim_line_items (t : table ClaimLineItem) (s : db) : db :=
  mkDb (claims s) t (payment_postings s) (eras s)
       (era_claim_details s) (denials s) (system_settings s) (patients s)
       (patient_insurance s) (insurance_providers s).

Definition set_payment_postings (t : table PaymentPosting) (s : db) : db :=
  mkDb (claims s) (claim_line_items s) t (eras s)
       (era_claim_details s) (denials s) (system_settings s) (patients s)
       (patient_insurance s) (insurance_providers s).

Definition set_eras (t : table Era) (s : db) : db :=
  mkDb (claims s) (claim_line_items s) (payment_postings s) t
       (era_claim_details s) (denials s) (system_settings s) (patients s)
       (patient_insurance s) (insurance_providers s).

Definition set_era_claim_details (t : table EraClaimDetail) (s : db) : db :=
  mkDb (claims s) (claim_line_items s) (payment_postings s) (eras s)
       t (denials s) (system_settings s) (patients s)
       (patient_insurance s) (insurance_providers s).

Definition set_denials (t : table Denial) (s : db) : db :=
  mkDb (claims s) (claim_line_items s) (payment_postings s) (eras s)
       (era_claim_details s) t (system_settings s) (patients s)
       (patient_insurance s) (insurance_providers s).

(** A [DECIMAL] column holds cents; [NaN] has no [DECIMAL] value. *)
Definition decimal_of (x : number) : option Z :=
  match x with
  | Fin c => Some c
  | NaN => None
  end.

(** [UPDATE claims SET claim_status, total_paid, patient_responsibility] *)
Definition set_remittance_result (status : ClaimStatus) (paid resp : number)
  (c : Claim) : Claim :=
  mkClaim (c_id c) (c_claim_number c) (c_patient_id c)
    (c_primary_insurance_id c) (c_secondary_insurance_id c) (c_provider_id c)
    (c_facility_id c) (c_claim_type c) (c_service_date_from c)
    (c_service_date_to c) (c_total_charges c) paid resp status
    (c_submission_date c) (c_clearinghouse_id c) (c_clearinghouse_status c)
    (c_primary_diagnosis_code c) (c_admission_date c) (c_discharge_date c)
    (c_place_of_service c) (c_billing_provider_npi c)
    (c_rendering_provider_npi c) (c_created_by c) (c_updated_by c).

(** [UPDATE claims SET total_paid = ?, patient_responsibility = ?] *)
Definition set_totals (paid resp : number) (c : Claim) : Claim :=
  set_remittance_result (c_claim_status c) paid resp c.

(** [UPDATE claims SET claim_status, submission_date, clearinghouse_id,
    clearinghouse_status, updated_by] *)
Definition set_submitted (date : Date) (ch_id ch_status : option string)
  (user : user_id) (c : Claim) : Claim :=
  mkClaim (c_id c) (c_claim_number c) (c_patient_id c)
    (c_primary_insurance_id c) (c_secondary_insurance_id c) (c_provider_id c)
    (c_facility_id c) (c_claim_type c) (c_service_date_from c)
    (c_service_date_to c) (c_total_charges c) (c_total_paid c)
    (c_patient_responsibility c) SUBMITTED
    (Some date) ch_id ch_status
    (c_primary_diagnosis_code c) (c_admission_date c) (c_discharge_date c)
    (c_place_of_service c) (c_billing_provider_npi c)
    (c_rendering_provider_npi c) (c_created_by c) (Some user).


(** [Database.findById("claims", id)] *)
Definition find_claim (id : Z) (s : db) : option Claim :=
  find_by c_id id (claims s).

(** [Database.findById("payment_postings", id)] *)
Definition find_payment (id : Z) (s : db) : option PaymentPosting :=
  find_by pp_id id (payment_postings s).

End Store.

(* ------------------------------------------------------------------ *)
(** ** [services/era-processor.js]: class [ERAProcessor]               *)
(* ------------------------------------------------------------------ *)

Module ERAProcessor.
Import Js.
Import Store.

(** The object [parseERAFile] builds for one CLP segment.  A property
    that was never assigned is [None]. *)
Record ClaimDetail : Type := mkClaimDetail {
  claim_number : option string;
  claim_status_code : option string;
  total_charge_amount : number;
  total_paid_amount : number;
  patient_responsibility : number;
  claim_status_description : string;
  patient_name : option string;
  service_date_from : option (option string);
  service_date_to : option (option string)
}.

Definition set_patient_name (v : string) (c : ClaimDetail) : ClaimDetail :=
  mkClaimDetail (claim_number c) (claim_status_code c)
    (total_charge_amount c) (total_paid_amount c) (patient_responsibility c)
    (claim_status_description c) (Some v)
    (service_date_from c) (service_date_to c).

Definition set_service_date_from (v : option string) (c : ClaimDetail)
  : ClaimDetail :=
  mkClaimDetail (claim_number c) (claim_status_code c)
    (total_charge_amount c) (total_paid_amount c) (patient_responsibility c)
    (claim_status_description c) (patient_name c)
    (Some v) (service_date_to c).

Definition set_service_date_to (v : option string) (c : ClaimDetail)
  : ClaimDetail :=
  mkClaimDetail (claim_number c) (claim_status_code c)
    (total_charge_amount c) (total_paid_amount c) (patient_responsibility c)
    (claim_status_description c) (patient_name c)
    (service_date_from c) (Some v).

(** The object [eraData] of [parseERAFile]. *)
Record EraData : Type := mkEraData {
  era_number : option string;
  payer_id : string;
  payer_name : option string;
  check_number : string;
  check_date : option string;
  check_amount : number;
  claims : list ClaimDetail
}.

Definition set_check (amount : number) (date : option string) (d : EraData)
  : EraData :=
  mkEraData (era_number d) (payer_id d) (payer_name d) (check_number d)
    date amount (claims d).

Definition set_era_number (v : option string) (d : EraData) : EraData :=
  mkEraData v (payer_id d) (payer_name d) (check_number d)
    (check_date d) (check_amount d) (claims d).

Definition set_payer_name (v : option string) (d : EraData) : EraData :=
  mkEraData (era_number d) (payer_id d) v (check_number d)
    (check_date d) (check_amount d) (claims d).

(** [eraData.claims.push(c)] *)
Definition push_claim (c : ClaimDetail) (d : EraData) : EraData :=
  mkEraData (era_number d) (payer_id d) (payer_name d) (check_number d)
    (check_date d) (check_amount d) (claims d ++ [c]).

(** [parseX12Date]: the ISO text handed to [new Date], or null. *)
Definition parseX12Date (dateString : option string) : option string :=
  match dateString with
  | None => None
  | Some s =>
      if String.eqb s "" || negb (Nat.eqb (String.length s) 8) then None
      else
        let year := substring 0 4 s in
        let month := substring 4 2 s in
        let day := substring 6 2 s in
        Some (year ++ "-" ++ month ++ "-" ++ day)
  end.

Definition claimStatusDescriptions : list (string * string) :=
  [ ("1", "Processed as Primary");
    ("2", "Processed as Secondary");
    ("3", "Processed as Tertiary");
    ("4", "Denied");
    ("19", "Processed as Primary, Forwarded to Additional Payer(s)");
    ("20", "Processed as Secondary, Forwarded to Additional Payer(s)");
    ("21", "Processed as Tertiary, Forwarded to Additional Payer(s)");
    ("22", "Reversal of Previous Payment");
    ("23", "Not Our Claim, Forwarded to Additional Payer(s)");
    ("25", "Predetermination Pricing Only - No Payment") ].

Definition getClaimStatusDescription (statusCode : option string) : string :=
  match get claimStatusDescriptions statusCode with
  | Some d => d
  | None => "Unknown Status"
  end.

Definition claimStatusMap : list (string * ClaimStatus) :=
  [ ("1", PAID); ("2", PAID); ("3", PAID); ("4", DENIED);
    ("19", PAID); ("20", PAID); ("21", PAID); ("22", PAID);
    ("23", REJECTED); ("25", ACCEPTED) ].

Definition mapERAStatusToClaimStatus (eraStatusCode : option string)
  : ClaimStatus :=
  match get claimStatusMap eraStatusCode with
  | Some s => s
  | None => SUBMITTED
  end.

Definition isClaimDenied (statusCode : option string) : bool :=
  includes ["4"; "23"] statusCode.

Definition technicalCodes : list string := ["16"; "18"; "26"; "27"].
Definition clinicalCodes : list string := ["11"; "12"; "13"; "14"; "15"].
Definition authorizationCodes : list string := ["52"; "53"; "54"; "55"; "56"].
Definition eligibilityCodes : list string := ["27"; "29"; "30"; "31"].

Definition categorizeDenial (reasonCode : option string) : DenialCategory :=
  if includes technicalCodes reasonCode then TECHNICAL
  else if includes clinicalCodes reasonCode then CLINICAL
  else if includes authorizationCodes reasonCode then AUTHORIZATION
  else if includes eligibilityCodes reasonCode then ELIGIBILITY
  else OTHER.

Definition highPriorityCodes : list string := ["11"; "12"; "27"; "29"].
Definition urgentCodes : list string := ["16"; "18"].

Definition getDenialPriority (reasonCode : option string) : Priority :=
  if includes urgentCodes reasonCode then URGENT
  else if includes highPriorityCodes reasonCode then HIGH
  else MEDIUM.

Section Parser.

(** [Number.parseFloat], applied to a possibly undefined field. *)
Variable parseFloat : option string -> number.

(** The body of the [for (const line of lines)] loop: the state is
    [eraData] and [currentClaim]. *)
Definition parseLine (st : EraData * option ClaimDetail) (line : string)
  : EraData * option ClaimDetail :=
  let (eraData, currentClaim) := st in
  let segments := split STAR line in
  let seg (i : nat) := nth_error segments i in
  let segmentId := seg 0%nat in
  if strict_eq segmentId "BPR" then
    (set_check (parseFloat (seg 2%nat)) (parseX12Date (seg 16%nat)) eraData,
     currentClaim)
  else if strict_eq segmentId "TRN" then
    (set_era_number (seg 2%nat) eraData, currentClaim)
  else if strict_eq segmentId "N1" then
    if strict_eq (seg 1%nat) "PR"
    then (set_payer_name (seg 2%nat) eraData, currentClaim)
    else (eraData, currentClaim)
  else if strict_eq segmentId "CLP" then
    let eraData' :=
      match currentClaim with
      | Some c => push_claim c eraData
      | None => eraData
      end in
    (eraData',
     Some (mkClaimDetail (seg 1%nat) (seg 2%nat)
             (parseFloat (seg 3%nat)) (parseFloat (seg 4%nat))
             (parseFloat (seg 5%nat))
             (getClaimStatusDescription (seg 2%nat))
             None None None))
  else if strict_eq segmentId "NM1" then
    match currentClaim with
    | Some c =>
        if strict_eq (seg 1%nat) "QC"
        then (eraData,
              Some (set_patient_name
                      (template (seg 4%nat) ++ " " ++ template (seg 3%nat)) c))
        else (eraData, currentClaim)
    | None => (eraData, currentClaim)
    end
  else if strict_eq segmentId "DTM" then
    let currentClaim1 :=
      match currentClaim with
      | Some c =>
          if strict_eq (seg 1%nat) "232"
          then Some (set_service_date_from (parseX12Date (seg 2%nat)) c)
          else currentClaim
      | None => currentClaim
      end in
    let currentClaim2 :=
      match currentClaim1 with
      | Some c =>
          if strict_eq (seg 1%nat) "233"
          then Some (set_service_date_to (parseX12Date (seg 2%nat)) c)
          else currentClaim1
      | None => currentClaim1
      end in
    (eraData, currentClaim2)
  else (eraData, currentClaim).

Definition emptyEraData : EraData :=
  mkEraData (Some "") "" (Some "") "" None (Fin 0) [].

Definition parseERAFile (fileContent : string) : EraData :=
  let lines := split LF fileContent in
  let (eraData, currentClaim) :=
    fold_left parseLine lines (emptyEraData, None) in
  match currentClaim with
  | Some c => push_claim c eraData
  | None => eraData
  end.

End Parser.

(** *** Effects: storage calls that may throw *)

Inductive outcome (A : Type) : Type :=
| Returned (a : A)
| Thrown (message : string).
Arguments Returned {A} _.
Arguments Thrown {A} _.

(** An [async] method: it runs on the database and returns or throws. *)
Definition M (A : Type) : Type := db -> outcome A * db.

Definition ret {A : Type} (a : A) : M A := fun s => (Returned a, s).

Definition throw {A : Type} (message : string) : M A :=
  fun s => (Thrown message, s).

Definition bind {A B : Type} (m : M A) (k : A -> M B) : M B :=
  fun s =>
    match m s with
    | (Returned a, s') => k a s'
    | (Thrown e, s') => (Thrown e, s')
    end.

Notation "x <- m ;; k" := (bind m (fun x => k))
  (at level 61, m at next level, right associativity).
Notation "m ;;; k" := (bind m (fun _ => k))
  (at level 61, right associativity).

(** [if (c) { await m }] *)
Definition when (c : bool) (m : M Z) : M unit :=
  if c then m ;;; ret tt else ret tt.

(** [for (const x of l) { await f(x) }] *)
Fixpoint forEach {A : Type} (f : A -> M Z) (l : list A) : M unit :=
  match l with
  | [] => ret tt
  | x :: rest => f x ;;; forEach f rest
  end.

(** The storage calls [ERAProcessor] makes. *)
Inductive request : Type :=
| create_eras (row : Era)
| create_era_claim_details (row : EraClaimDetail)
| create_payment_postings (row : PaymentPosting)
| create_denials (row : Denial)
| update_claims (id : Z) (status : ClaimStatus) (paid resp : number)
| update_eras (id : Z)
| findOne_claims (number : option string)
| findOne_system_settings (setting_key : string).

(** What [processERAFile] resolves to: [{success: true, era_id}] or
    [{success: false, error}]. *)
Inductive Result : Type :=
| Success (era_id : Z)
| Failure (error : string).

Section Processing.

Variable parseFloat : option string -> number.

(** [fs.readFile(filePath, "utf8")] *)
Variable readFile : string -> outcome string.

(** Modelled from the spec: the storage layer [lib/database] is not among
    the sources.  Its calls are those of the specification ([create]
    returns the new id, [findOne] a record or null, [update] changes the
    row with the id); [storage_error s r] is the message with which the
    storage rejects request [r] in state [s], if it does. *)
Variable storage_error : db -> request -> option string.

(** The instant every [new Date()] of the request reads. *)
Variable now : Date.

Definition call {A : Type} (req : db -> request) (run : db -> A * db)
  : M A :=
  fun s =>
    match storage_error s (req s) with
    | Some message => (Thrown message, s)
    | None => let (a, s') := run s in (Returned a, s')
    end.

Definition Database_create_eras (fields : Z -> Era) : M Z :=
  call (fun s => create_eras (fields (auto_increment (eras s))))
       (fun s => let (id, t) := insert fields (eras s) in (id, set_eras t s)).

Definition Database_create_era_claim_details (fields : Z -> EraClaimDetail)
  : M Z :=
  call (fun s => create_era_claim_details
                   (fields (auto_increment (era_claim_details s))))
       (fun s => let (id, t) := insert fields (era_claim_details s) in
                 (id, set_era_claim_details t s)).

Definition Database_create_payment_postings (fields : Z -> PaymentPosting)
  : M Z :=
  call (fun s => create_payment_postings
                   (fields (auto_increment (payment_postings s))))
       (fun s => let (id, t) := insert fields (payment_postings s) in
                 (id, set_payment_postings t s)).

Definition Database_create_denials (fields : Z -> Denial) : M Z :=
  call (fun s => create_denials (fields (auto_increment (denials s))))
       (fun s => let (id, t) := insert fields (denials s) in
                 (id, set_denials t s)).

Definition Database_update_claims (id : Z) (status : ClaimStatus)
  (paid resp : number) : M Z :=
  call (fun _ => update_claims id status paid resp)
       (fun s => (1, set_claims
                       (update_where c_id id
                          (set_remittance_result status paid resp)
                          (Store.claims s)) s)).

Definition set_era_posted (at_ : Date) (e : Era) : Era :=
  mkEra (e_id e) (e_era_number e) (e_payer_id e) (e_payer_name e)
    (e_check_number e) (e_check_date e) (e_check_amount e)
    (e_era_file_path e) POSTED (Some at_).

Definition Database_update_eras_posted (id : Z) (at_ : Date) : M Z :=
  call (fun _ => update_eras id)
       (fun s => (1, set_eras (update_where e_id id (set_era_posted at_)
                                 (eras s)) s)).

Definition Database_findOne_claims (number : option string)
  : M (option Claim) :=
  call (fun _ => findOne_claims number)
       (fun s => (find (fun c => strict_eq number (c_claim_number c))
                       (rows (Store.claims s)), s)).

Definition Database_findOne_system_settings (setting_key : string)
  : M (option (option string)) :=
  call (fun _ => findOne_system_settings setting_key)
       (fun s => (lookup (system_settings s) setting_key, s)).

Definition isAutoPostingEnabled : M bool :=
  setting <- Database_findOne_system_settings "era_auto_posting_enabled" ;;
  ret (match setting with
       | Some setting_value => strict_eq setting_value "true"
       | None => false
       end).

Definition calculateAppealDeadline : Date := addDays now 90.

Definition calculateFollowUpDate : Date := addDays now 14.

Definition autoPostPayment (claimId eraId : Z) (claimDetail : ClaimDetail)
  : M Z :=
  match decimal_of (total_paid_amount claimDetail) with
  | Some amount =>
      Database_create_payment_postings (fun id =>
        mkPaymentPosting id claimId (Some eraId) INSURANCE ERA amount now
          None (claim_number claimDetail) None None None
          None now)
  | None => throw "Incorrect decimal value for payment_amount"
  end.

Definition createDenialRecord (claimId : Z) (claimDetail : ClaimDetail)
  : M Z :=
  Database_create_denials (fun id =>
    mkDenial id claimId now
      (claim_status_code claimDetail)
      (claim_status_description claimDetail)
      (categorizeDenial (claim_status_code claimDetail))
      (getDenialPriority (claim_status_code claimDetail))
      OPEN
      calculateAppealDeadline
      calculateFollowUpDate).

Definition processERAClaim (eraId : Z) (claimDetail : ClaimDetail) : M Z :=
  claim <- Database_findOne_claims (claim_number claimDetail) ;;
  eraClaimId <- Database_create_era_claim_details (fun id =>
    mkEraClaimDetail id eraId
      (match claim with Some c => Some (c_id c) | None => None end)
      (claim_number claimDetail)
      (patient_name claimDetail)
      (service_date_from claimDetail)
      (service_date_to claimDetail)
      (total_charge_amount claimDetail)
      (total_paid_amount claimDetail)
      (patient_responsibility claimDetail)
      (claim_status_code claimDetail)
      (claim_status_description claimDetail)) ;;
  match claim with
  | Some c =>
      autoPostingEnabled <- isAutoPostingEnabled ;;
      when (autoPostingEnabled && gt_zero (total_paid_amount claimDetail))
           (autoPostPayment (c_id c) eraId claimDetail) ;;;
      Database_update_claims (c_id c)
        (mapERAStatusToClaimStatus (claim_status_code claimDetail))
        (total_paid_amount claimDetail)
        (patient_responsibility claimDetail) ;;;
      when (isClaimDenied (claim_status_code claimDetail))
           (createDenialRecord (c_id c) claimDetail) ;;;
      ret eraClaimId
  | None => ret eraClaimId
  end.

Definition processERAFile (filePath fileName : string) (s : db)
  : Result * db :=
  let run : M Z :=
    fileContent <- (fun s => (readFile filePath, s)) ;;
    let eraData := parseERAFile parseFloat fileContent in
    eraId <- Database_create_eras (fun id =>
      mkEra id (era_number eraData) (payer_id eraData) (payer_name eraData)
        (check_number eraData) (check_date eraData) (check_amount eraData)
        filePath PROCESSING None) ;;
    forEach (processERAClaim eraId) (claims eraData) ;;;
    Database_update_eras_posted eraId now ;;;
    ret eraId in
  match run s with
  | (Returned eraId, s') => (Success eraId, s')
  | (Thrown message, s') => (Failure message, s')
  end.

End Processing.

End ERAProcessor.

(* ------------------------------------------------------------------ *)
(** ** Requests and responses of the Express routes                    *)
(* ------------------------------------------------------------------ *)

Module Http.

(** The first error of a Joi validation ([error.details[0]]). *)
Inductive JoiError : Type :=
| is_required (key : string)
| is_invalid (key : string)
| is_not_allowed (key : string).

(** [res.status(n).json(body)] *)
Inductive Body : Type :=
| success_message (message : string)
| success_created (message : string) (id : Z) (claim_number : option string)
| success_submitted (message : string) (clearinghouse_id : option string)
| error_message (error : string)
| error_validation (error : JoiError)
| error_validation_errors (error : string) (validation_errors : list string)
| error_details (error : string) (details : option string).

Record Response : Type := mkResponse { status : Z; body : Body }.

(** [Joi.string().max(n)]: a non-empty text of at most [n] characters. *)
Definition joi_string (max : nat) (s : string) : bool :=
  negb (String.eqb s "") && Nat.leb (String.length s) max.

(** An optional key: absent, or valid. *)
Definition joi_optional_string (max : nat) (v : option string) : bool :=
  match v with
  | None => true
  | Some s => joi_string max s
  end.

(** [!v] for a text column: NULL or the empty text. *)
Definition falsy (v : option string) : bool :=
  match v with
  | None => true
  | Some s => String.eqb s ""
  end.

End Http.

(* ------------------------------------------------------------------ *)
(** ** [routes/denials.js]: the payment routes                         *)
(* ------------------------------------------------------------------ *)

Module Payments.
Import Js.
Import Store.
Import Http.

(** A request body for [paymentSchema]; an absent key is [None]. *)
Record PaymentBody : Type := mkPaymentBody {
  claim_id : option Z;
  payment_type : option string;
  payment_method : option string;
  payment_amount : option Z;
  payment_date : option Date;
  check_number : option string;
  reference_number : option string;
  payer_name : option string;
  adjustment_reason_code : option string;
  adjustment_reason_description : option string;
  unknown_keys : list string
}.

(** The validated [value]. *)
Record Payment : Type := mkPayment {
  v_claim_id : Z;
  v_payment_type : PaymentType;
  v_payment_method : PaymentMethod;
  v_payment_amount : Z;
  v_payment_date : Date;
  v_check_number : option string;
  v_reference_number : option string;
  v_payer_name : option string;
  v_adjustment_reason_code : option string;
  v_adjustment_reason_description : option string
}.

Definition payment_type_of (s : string) : option PaymentType :=
  if String.eqb s "INSURANCE" then Some INSURANCE
  else if String.eqb s "PATIENT" then Some PATIENT
  else if String.eqb s "ADJUSTMENT" then Some ADJUSTMENT
  else if String.eqb s "REFUND" then Some REFUND
  else None.

Definition payment_method_of (s : string) : option PaymentMethod :=
  if String.eqb s "CHECK" then Some CHECK
  else if String.eqb s "EFT" then Some EFT
  else if String.eqb s "CREDIT_CARD" then Some CREDIT_CARD
  else if String.eqb s "CASH" then Some CASH
  else if String.eqb s "ERA" then Some ERA
  else None.

(** [paymentSchema.validate(body)] *)
Definition paymentSchema_validate (b : PaymentBody) : JoiError + Payment :=
  match claim_id b with
  | None => inl (is_required "claim_id")
  | Some cid =>
  match payment_type b with
  | None => inl (is_required "payment_type")
  | Some ty =>
  match payment_type_of ty with
  | None => inl (is_invalid "payment_type")
  | Some ty' =>
  match payment_method b with
  | None => inl (is_required "payment_method")
  | Some me =>
  match payment_method_of me with
  | None => inl (is_invalid "payment_method")
  | Some me' =>
  match payment_amount b with
  | None => inl (is_required "payment_amount")
  | Some amount =>
  if amount <? 0 then inl (is_invalid "payment_amount") else
  match payment_date b with
  | None => inl (is_required "payment_date")
  | Some date =>
  if negb (joi_optional_string 50 (check_number b))
  then inl (is_invalid "check_number")
  else if negb (joi_optional_string 100 (reference_number b))
  then inl (is_invalid "reference_number")
  else if negb (joi_optional_string 255 (payer_name b))
  then inl (is_invalid "payer_name")
  else if negb (joi_optional_string 10 (adjustment_reason_code b))
  then inl (is_invalid "adjustment_reason_code")
  else if negb (joi_optional_string 1000 (adjustment_reason_description b))
  then inl (is_invalid "adjustment_reason_description")
  else
  match unknown_keys b with
  | key :: _ => inl (is_not_allowed key)
  | [] =>
      inr (mkPayment cid ty' me' amount date (check_number b)
             (reference_number b) (payer_name b) (adjustment_reason_code b)
             (adjustment_reason_description b))
  end end end end end end end end.

(** [SUM(expr)] over the selected rows: NULL when there is none. *)
Definition SUM {A : Type} (expr : A -> Z) (selected : list A) : option Z :=
  match selected with
  | [] => None
  | _ => Some (fold_left (fun acc r => acc + expr r) selected 0)
  end.

(** [v || 0] on a sum that may be NULL. *)
Definition or_zero (v : option Z) : Z :=
  match v with
  | Some x => x
  | None => 0
  end.

Definition is_insurance_or_patient (t : PaymentType) : bool :=
  match t with
  | INSURANCE | PATIENT => true
  | _ => false
  end.

Definition is_adjustment (t : PaymentType) : bool :=
  match t with
  | ADJUSTMENT => true
  | _ => false
  end.

(** [updateClaimTotals(connection, claimId)] *)
Definition updateClaimTotals (claimId : Z) (s : db) : db :=
  let selected :=
    filter (fun pp => pp_claim_id pp =? claimId) (rows (payment_postings s)) in
  let total_paid :=
    SUM (fun pp => if is_insurance_or_patient (pp_payment_type pp)
                   then pp_payment_amount pp else 0) selected in
  let total_adjustments :=
    SUM (fun pp => if is_adjustment (pp_payment_type pp)
                   then pp_payment_amount pp else 0) selected in
  let totalPaid := or_zero total_paid in
  let totalAdjustments := or_zero total_adjustments in
  match find_claim claimId s with
  | Some claim =>
      let patientResponsibility :=
        Z.max 0 (c_total_charges claim - totalPaid - totalAdjustments) in
      set_claims
        (update_where c_id claimId
           (set_totals (Fin totalPaid) (Fin patientResponsibility))
           (claims s)) s
  | None => s
  end.

(** The row [{...value, posted_by, posted_at}] of a manual posting. *)
Definition posting_of (value : Payment) (posted_by : user_id)
  (posted_at : Date) (id : Z) : PaymentPosting :=
  mkPaymentPosting id (v_claim_id value) None (v_payment_type value)
    (v_payment_method value) (v_payment_amount value) (v_payment_date value)
    (v_check_number value) (v_reference_number value) (v_payer_name value)
    (v_adjustment_reason_code value) (v_adjustment_reason_description value)
    (Some posted_by) posted_at.

(** [UPDATE payment_postings SET k = ? ...] for the keys of [value]: an
    optional key that is absent keeps the column. *)
Definition keep {A : Type} (new old : option A) : option A :=
  match new with
  | Some v => Some v
  | None => old
  end.

Definition set_posting (value : Payment) (pp : PaymentPosting)
  : PaymentPosting :=
  mkPaymentPosting (pp_id pp) (v_claim_id value) (pp_era_id pp)
    (v_payment_type value) (v_payment_method value) (v_payment_amount value)
    (v_payment_date value)
    (keep (v_check_number value) (pp_check_number pp))
    (keep (v_reference_number value) (pp_reference_number pp))
    (keep (v_payer_name value) (pp_payer_name pp))
    (keep (v_adjustment_reason_code value) (pp_adjustment_reason_code pp))
    (keep (v_adjustment_reason_description value)
          (pp_adjustment_reason_description pp))
    (pp_posted_by pp) (pp_posted_at pp).

(** [!posted_by] *)
Definition no_poster (posted_by : option user_id) : bool :=
  match posted_by with
  | None => true
  | Some _ => false
  end.

(** The transaction of a manual posting: insert, then recompute. *)
Definition insert_and_recompute (value : Payment) (user : user_id)
  (now : Date) (s : db) : Z * db :=
  let (newPaymentId, t) :=
    insert (posting_of value user now) (payment_postings s) in
  (newPaymentId, updateClaimTotals (v_claim_id value)
                   (set_payment_postings t s)).

(** [router.post("/")]: manual payment posting. *)
Definition post_payment (user : user_id) (now : Date) (b : PaymentBody)
  (s : db) : Response * db :=
  match paymentSchema_validate b with
  | inl error => (mkResponse 400 (error_validation error), s)
  | inr value =>
      match find_claim (v_claim_id value) s with
      | None => (mkResponse 404 (error_message "Claim not found"), s)
      | Some _ =>
          let (paymentId, s') := insert_and_recompute value user now s in
          (mkResponse 201
             (success_created "Payment posted successfully" paymentId None),
           s')
      end
  end.

(** [router.put("/:id")]: update a payment. *)
Definition put_payment (id : Z) (b : PaymentBody) (s : db)
  : Response * db :=
  match find_payment id s with
  | None => (mkResponse 404 (error_message "Payment not found"), s)
  | Some existingPayment =>
      if payment_method_is_ERA (pp_payment_method existingPayment)
         && no_poster (pp_posted_by existingPayment)
      then (mkResponse 400
              (error_message "Cannot edit auto-posted ERA payments"), s)
      else
        match paymentSchema_validate b with
        | inl error => (mkResponse 400 (error_validation error), s)
        | inr value =>
            let s1 :=
              set_payment_postings
                (update_where pp_id id (set_posting value)
                   (payment_postings s)) s in
            (mkResponse 200 (success_message "Payment updated successfully"),
             updateClaimTotals (v_claim_id value) s1)
        end
  end.

(** [router.delete("/:id")]: delete a payment. *)
Definition delete_payment (id : Z) (s : db) : Response * db :=
  match find_payment id s with
  | None => (mkResponse 404 (error_message "Payment not found"), s)
  | Some payment =>
      if payment_method_is_ERA (pp_payment_method payment)
         && no_poster (pp_posted_by payment)
      then (mkResponse 400
              (error_message "Cannot delete auto-posted ERA payments"), s)
      else
        let s1 :=
          set_payment_postings
            (delete_where pp_id id (payment_postings s)) s in
        (mkResponse 200 (success_message "Payment deleted successfully"),
         updateClaimTotals (pp_claim_id payment) s1)
  end.

(** One entry of [results] in the bulk route. *)
Inductive BulkResult : Type :=
| bulk_SUCCESS (claim_id : Z) (payment_id : Z)
| bulk_ERROR (claim_id : option Z) (error : JoiError + string).

(** The body of the loop of [router.post("/bulk")]. *)
Definition bulk_item (user : user_id) (now : Date)
  (st : list BulkResult * db) (paymentData : PaymentBody)
  : list BulkResult * db :=
  let (results, s) := st in
  match paymentSchema_validate paymentData with
  | inl error =>
      ((results ++ [bulk_ERROR (claim_id paymentData) (inl error)])%list, s)
  | inr value =>
      match find_claim (v_claim_id value) s with
      | None =>
          ((results ++ [bulk_ERROR (Some (v_claim_id value))
                          (inr "Claim not found")])%list, s)
      | Some _ =>
          let (paymentId, s') := insert_and_recompute value user now s in
          ((results ++ [bulk_SUCCESS (v_claim_id value) paymentId])%list, s')
      end
  end.

(** [router.post("/bulk")]: the results, or the 400 for an empty list. *)
Definition post_bulk (user : user_id) (now : Date)
  (payments : list PaymentBody) (s : db)
  : (Response + list BulkResult) * db :=
  match payments with
  | [] => (inl (mkResponse 400 (error_message "Payments array is required")),
           s)
  | _ => let (results, s') := fold_left (bulk_item user now) payments ([], s)
         in (inr results, s')
  end.

End Payments.

(* ------------------------------------------------------------------ *)
(** ** [services/clearinghouse.js] and [routes/claims.js]              *)
(* ------------------------------------------------------------------ *)

Module Claims.
Import Js.
Import Store.
Import Http.

(** One entry of [line_items] in a request body. *)
Record LineItemBody : Type := mkLineItemBody {
  b_line_number : option Z;
  b_procedure_code : option string;
  b_modifier1 : option string;
  b_modifier2 : option string;
  b_modifier3 : option string;
  b_modifier4 : option string;
  b_diagnosis_code_1 : option string;
  b_diagnosis_code_2 : option string;
  b_diagnosis_code_3 : option string;
  b_diagnosis_code_4 : option string;
  b_service_date : option Z;
  b_units : option Z;
  b_charge_amount : option Z;
  b_li_place_of_service : option string;
  b_li_rendering_provider_npi : option string;
  b_li_unknown_keys : list string
}.

(** A request body for [claimSchema]; an absent key is [None]. *)
Record ClaimBody : Type := mkClaimBody {
  b_patient_id : option Z;
  b_primary_insurance_id : option Z;
  b_secondary_insurance_id : option Z;
  b_provider_id : option Z;
  b_facility_id : option Z;
  b_claim_type : option string;
  b_service_date_from : option Z;
  b_service_date_to : option Z;
  b_primary_diagnosis_code : option string;
  b_admission_date : option Z;
  b_discharge_date : option Z;
  b_place_of_service : option string;
  b_billing_provider_npi : option string;
  b_rendering_provider_npi : option string;
  b_line_items : option (list LineItemBody);
  b_unknown_keys : list string
}.

(** The validated [value]. *)
Record ClaimValue : Type := mkClaimValue {
  patient_id : Z;
  primary_insurance_id : Z;
  secondary_insurance_id : option Z;
  provider_id : option Z;
  facility_id : option Z;
  claim_type : ClaimType;
  service_date_from : Z;
  service_date_to : Z;
  primary_diagnosis_code : string;
  admission_date : option Z;
  discharge_date : option Z;
  place_of_service : string;
  billing_provider_npi : string;
  rendering_provider_npi : string;
  line_items : list LineItem
}.

Definition claim_type_of (s : string) : option ClaimType :=
  if String.eqb s "PROFESSIONAL" then Some PROFESSIONAL
  else if String.eqb s "INSTITUTIONAL" then Some INSTITUTIONAL
  else if String.eqb s "DENTAL" then Some DENTAL
  else if String.eqb s "VISION" then Some VISION
  else None.

(** A required text key. *)
Definition required_string (key : string) (max : nat) (v : option string)
  : JoiError + string :=
  match v with
  | None => inl (is_required key)
  | Some s => if joi_string max s then inr s else inl (is_invalid key)
  end.

(** An optional text key. *)
Definition optional_string (key : string) (max : nat) (v : option string)
  : JoiError + option string :=
  if joi_optional_string max v then inr v else inl (is_invalid key).

(** A required key of any other type. *)
Definition required {A : Type} (key : string) (v : option A)
  : JoiError + A :=
  match v with
  | None => inl (is_required key)
  | Some x => inr x
  end.

Definition andThen {A B : Type} (r : JoiError + A) (k : A -> JoiError + B)
  : JoiError + B :=
  match r with
  | inl e => inl e
  | inr a => k a
  end.

Notation "x <-- r ; k" := (andThen r (fun x => k))
  (at level 61, r at next level, right associativity).

(** The schema of one line item. *)
Definition lineItemSchema_validate (b : LineItemBody) : JoiError + LineItem :=
  ln <-- required "line_number" (b_line_number b) ;
  pc <-- required_string "procedure_code" 20 (b_procedure_code b) ;
  m1 <-- optional_string "modifier1" 5 (b_modifier1 b) ;
  m2 <-- optional_string "modifier2" 5 (b_modifier2 b) ;
  m3 <-- optional_string "modifier3" 5 (b_modifier3 b) ;
  m4 <-- optional_string "modifier4" 5 (b_modifier4 b) ;
  d1 <-- optional_string "diagnosis_code_1" 20 (b_diagnosis_code_1 b) ;
  d2 <-- optional_string "diagnosis_code_2" 20 (b_diagnosis_code_2 b) ;
  d3 <-- optional_string "diagnosis_code_3" 20 (b_diagnosis_code_3 b) ;
  d4 <-- optional_string "diagnosis_code_4" 20 (b_diagnosis_code_4 b) ;
  sd <-- required "service_date" (b_service_date b) ;
  un <-- match b_units b with
         | None => inr 1
         | Some u => if u <? 1 then inl (is_invalid "units") else inr u
         end ;
  ca <-- required "charge_amount" (b_charge_amount b) ;
  ca <-- (if ca <? 0 then inl (is_invalid "charge_amount") else inr ca) ;
  ps <-- optional_string "place_of_service" 10 (b_li_place_of_service b) ;
  rp <-- optional_string "rendering_provider_npi" 20
           (b_li_rendering_provider_npi b) ;
  match b_li_unknown_keys b with
  | key :: _ => inl (is_not_allowed key)
  | [] => inr (mkLineItem ln (Some pc) m1 m2 m3 m4 d1 d2 d3 d4 (Some sd)
                 un ca ps rp)
  end.

(** [Joi.array().items(...)]: every entry, in order. *)
Fixpoint items_validate (l : list LineItemBody) : JoiError + list LineItem :=
  match l with
  | [] => inr []
  | b :: rest =>
      item <-- lineItemSchema_validate b ;
      items <-- items_validate rest ;
      inr (item :: items)
  end.

(** [claimSchema.validate(body)] *)
Definition claimSchema_validate (b : ClaimBody) : JoiError + ClaimValue :=
  pid <-- required "patient_id" (b_patient_id b) ;
  ins <-- required "primary_insurance_id" (b_primary_insurance_id b) ;
  ct <-- required "claim_type" (b_claim_type b) ;
  ct <-- match claim_type_of ct with
         | Some t => inr t
         | None => inl (is_invalid "claim_type")
         end ;
  sf <-- required "service_date_from" (b_service_date_from b) ;
  st <-- required "service_date_to" (b_service_date_to b) ;
  dx <-- required_string "primary_diagnosis_code" 20
           (b_primary_diagnosis_code b) ;
  ps <-- required_string "place_of_service" 10 (b_place_of_service b) ;
  bn <-- required_string "billing_provider_npi" 20
           (b_billing_provider_npi b) ;
  rn <-- required_string "rendering_provider_npi" 20
           (b_rendering_provider_npi b) ;
  li <-- required "line_items" (b_line_items b) ;
  items <-- items_validate li ;
  items <-- match items with
            | [] => inl (is_invalid "line_items")
            | _ => inr items
            end ;
  match b_unknown_keys b with
  | key :: _ => inl (is_not_allowed key)
  | [] => inr (mkClaimValue pid ins (b_secondary_insurance_id b)
                 (b_provider_id b) (b_facility_id b) ct sf st dx
                 (b_admission_date b) (b_discharge_date b) ps bn rn items)
  end.

(** [value.line_items.reduce((sum, item) => sum + item.charge_amount, 0)] *)
Definition totalCharges (items : list LineItem) : Z :=
  fold_left (fun sum item => sum + charge_amount item) items 0.

(** The row [claimData] of a new claim; the columns it leaves out take
    their defaults. *)
Definition claimData (claimNumber : string) (value : ClaimValue)
  (user : user_id) (id : Z) : Claim :=
  mkClaim id claimNumber (patient_id value) (primary_insurance_id value)
    (secondary_insurance_id value) (provider_id value) (facility_id value)
    (claim_type value) (service_date_from value) (service_date_to value)
    (totalCharges (line_items value)) (Fin 0) (Fin 0) DRAFT
    None None None
    (Some (primary_diagnosis_code value))
    (admission_date value) (discharge_date value)
    (Some (place_of_service value)) (Some (billing_provider_npi value))
    (Some (rendering_provider_npi value)) (Some user) (Some user).

(** [UPDATE claims SET ...updateData] *)
Definition updateData (value : ClaimValue) (user : user_id) (c : Claim)
  : Claim :=
  mkClaim (c_id c) (c_claim_number c) (patient_id value)
    (primary_insurance_id value)
    (secondary_insurance_id value) (provider_id value) (facility_id value)
    (claim_type value) (service_date_from value) (service_date_to value)
    (totalCharges (line_items value)) (c_total_paid c)
    (c_patient_responsibility c) (c_claim_status c)
    (c_submission_date c) (c_clearinghouse_id c) (c_clearinghouse_status c)
    (Some (primary_diagnosis_code value))
    (admission_date value) (discharge_date value)
    (Some (place_of_service value)) (Some (billing_provider_npi value))
    (Some (rendering_provider_npi value)) (c_created_by c) (Some user).

(** [for (const lineItem of value.line_items) INSERT INTO claim_line_items] *)
Definition insert_line_items (claimId : Z) (items : list LineItem)
  (t : table ClaimLineItem) : table ClaimLineItem :=
  fold_left (fun t item =>
               snd (insert (fun id => mkClaimLineItem id claimId item) t))
            items t.

(** [router.post("/")]: create a claim.  [claimNumber] is the number
    [generateClaimNumber()] drew. *)
Definition post_claim (user : user_id) (claimNumber : string)
  (b : ClaimBody) (s : db) : Response * db :=
  match claimSchema_validate b with
  | inl error => (mkResponse 400 (error_validation error), s)
  | inr value =>
      let (newClaimId, t) :=
        insert (claimData claimNumber value user) (claims s) in
      let s1 := set_claims t s in
      let s2 :=
        set_claim_line_items
          (insert_line_items newClaimId (line_items value)
             (claim_line_items s1)) s1 in
      (mkResponse 201
         (success_created "Claim created successfully" newClaimId
            (Some claimNumber)), s2)
  end.

(** [router.put("/:id")]: update a claim. *)
Definition put_claim (user : user_id) (id : Z) (b : ClaimBody) (s : db)
  : Response * db :=
  match find_claim id s with
  | None => (mkResponse 404 (error_message "Claim not found"), s)
  | Some existingClaim =>
      if negb (is_draft_or_ready (c_claim_status existingClaim))
      then (mkResponse 400 (error_message "Cannot update submitted claim"), s)
      else
        match claimSchema_validate b with
        | inl error => (mkResponse 400 (error_validation error), s)
        | inr value =>
            let s1 :=
              set_claims (update_where c_id id (updateData value user)
                            (claims s)) s in
            let s2 :=
              set_claim_line_items
                (delete_where cli_claim_id id (claim_line_items s1)) s1 in
            let s3 :=
              set_claim_line_items
                (insert_line_items id (line_items value)
                   (claim_line_items s2)) s2 in
            (mkResponse 200 (success_message "Claim updated successfully"),
             s3)
        end
  end.

(** The row of the join in [validateClaimForSubmission]. *)
Definition joined_claim (claimId : Z) (s : db)
  : option (Claim * Patient * PatientInsurance * InsuranceProvider) :=
  match find_claim claimId s with
  | None => None
  | Some c =>
  match find (fun p => p_id p =? c_patient_id c) (patients s) with
  | None => None
  | Some p =>
  match find (fun i => pi_id i =? c_primary_insurance_id c)
             (patient_insurance s) with
  | None => None
  | Some i =>
  match find (fun ip => ip_id ip =? pi_insurance_provider_id i)
             (insurance_providers s) with
  | None => None
  | Some ip => Some (c, p, i, ip)
  end end end end.

(** [if (c) errors.push(msg)] *)
Definition push_if (c : bool) (msg : string) (errors : list string)
  : list string :=
  if c then (errors ++ [msg])%list else errors.

Definition line_label (index : nat) : string :=
  "Line " ++ NilEmpty.string_of_uint (Nat.to_uint (S index)) ++ ": ".

(** [lineItems.forEach((item, index) => ...)] *)
Fixpoint line_item_errors (index : nat) (lineItems : list ClaimLineItem)
  (errors : list string) : list string :=
  match lineItems with
  | [] => errors
  | row :: rest =>
      let item := cli_item row in
      let errors :=
        push_if (falsy (procedure_code item))
          (line_label index ++ "Procedure code is required") errors in
      let errors :=
        push_if (charge_amount item <=? 0)
          (line_label index ++ "Valid charge amount is required") errors in
      let errors :=
        push_if (match service_date item with None => true | Some _ => false
                 end)
          (line_label index ++ "Service date is required") errors in
      line_item_errors (S index) rest errors
  end.

(** [validateClaimForSubmission(claimId)]: the list [errors]; the claim
    is valid when it is empty. *)
Definition validateClaimForSubmission (claimId : Z) (s : db) : list string :=
  match joined_claim claimId s with
  | None => ["Claim not found"]
  | Some (claim, p, i, ip) =>
      let errors := [] in
      let errors := push_if (falsy (c_billing_provider_npi claim))
                      "Billing provider NPI is required" errors in
      let errors := push_if (falsy (c_rendering_provider_npi claim))
                      "Rendering provider NPI is required" errors in
      let errors := push_if (falsy (c_primary_diagnosis_code claim))
                      "Primary diagnosis code is required" errors in
      let errors := push_if (falsy (c_place_of_service claim))
                      "Place of service is required" errors in
      let errors := push_if (falsy (p_first_name p) || falsy (p_last_name p))
                      "Patient name is required" errors in
      let errors := push_if (match p_date_of_birth p with
                             | None => true | Some _ => false end)
                      "Patient date of birth is required" errors in
      let errors := push_if (falsy (p_gender p))
                      "Patient gender is required" errors in
      let errors := push_if (falsy (pi_policy_number_encrypted i))
                      "Insurance policy number is required" errors in
      let errors := push_if (falsy (ip_payer_id ip))
                      "Insurance payer ID is required" errors in
      let lineItems :=
        filter (fun r => cli_claim_id r =? claimId)
               (rows (claim_line_items s)) in
      match lineItems with
      | [] => (errors ++ ["At least one line item is required"])%list
      | _ => line_item_errors 0 lineItems errors
      end
  end.

Definition valid (errors : list string) : bool :=
  match errors with
  | [] => true
  | _ => false
  end.

(** What [getFullClaimData] hands to the clearinghouse. *)
Definition getFullClaimData (claimId : Z) (s : db)
  : option (Claim * Patient * PatientInsurance * InsuranceProvider)
    * list ClaimLineItem :=
  (joined_claim claimId s,
   filter (fun r => cli_claim_id r =? claimId) (rows (claim_line_items s))).

(** The outcome of [axios.post]: a response with [data.claim_id],
    [data.status], [data.message], or an error with
    [response?.data?.message] and [message]. *)
Inductive AxiosOutcome : Type :=
| resolved (claim_id status message : option string)
| rejected (response_message : option string) (message : string).

(** What [ClearinghouseService.submitClaim] resolves to. *)
Inductive SubmissionResult : Type :=
| submission_success (clearinghouse_id status message : option string)
| submission_failure (error : option string).

Section Submission.

(** The clearinghouse: [axios.post(baseURL/claims/submit, ...)]. *)
Variable axios_post :
  option (Claim * Patient * PatientInsurance * InsuranceProvider)
  * list ClaimLineItem -> AxiosOutcome.

(** [ClearinghouseService.submitClaim(claimData)] *)
Definition submitClaim
  (data : option (Claim * Patient * PatientInsurance * InsuranceProvider)
          * list ClaimLineItem) : SubmissionResult :=
  match axios_post data with
  | resolved claim_id status message =>
      submission_success claim_id status message
  | rejected response_message message =>
      submission_failure
        (if falsy response_message then Some message else response_message)
  end.

(** [router.post("/:id/submit")]: submit a claim to the clearinghouse. *)
Definition submit_claim (user : user_id) (now : Date) (id : Z) (s : db)
  : Response * db :=
  match find_claim id s with
  | None => (mkResponse 404 (error_message "Claim not found"), s)
  | Some claim =>
      if negb (is_draft_or_ready (c_claim_status claim))
      then (mkResponse 400
              (error_message "Claim cannot be submitted in current status"),
            s)
      else
        let errors := validateClaimForSubmission id s in
        if negb (valid errors)
        then (mkResponse 400
                (error_validation_errors "Claim validation failed" errors), s)
        else
          match submitClaim (getFullClaimData id s) with
          | submission_success clearinghouse_id status _ =>
              (mkResponse 200
                 (success_submitted "Claim submitted successfully"
                    clearinghouse_id),
               set_claims
                 (update_where c_id id
                    (set_submitted now clearinghouse_id status user)
                    (claims s)) s)
          | submission_failure error =>
              (mkResponse 400 (error_details "Claim submission failed" error),
               s)
          end
  end.

End Submission.

End Claims.

(* ------------------------------------------------------------------ *)
(** ** The remittance wire format, as the specification describes it   *)
(* ------------------------------------------------------------------ *)

Module Segments.
Import Js.
Import ERAProcessor.

(** Field [i] of a record: the tag is field 0. *)
Definition field (line : string) (i : nat) : option string :=
  nth_error (split STAR line) i.

Definition has_tag (tag : string) (line : string) : bool :=
  strict_eq (field line 0%nat) tag.

Definition is_CLP (line : string) : bool := has_tag "CLP" line.

(** The records up to the next CLP segment (or the end of the input). *)
Fixpoint until_next_CLP (lines : list string) : list string :=
  match lines with
  | [] => []
  | l :: rest => if is_CLP l then [] else l :: until_next_CLP rest
  end.

(** Every CLP segment of the input, in input order, each with the
    records between it and the next CLP. *)
Fixpoint claim_groups (lines : list string) : list (string * list string) :=
  match lines with
  | [] => []
  | l :: rest =>
      if is_CLP l then (l, until_next_CLP rest) :: claim_groups rest
      else claim_groups rest
  end.

(** The number of CLP segments of the input. *)
Definition count_CLP (lines : list string) : nat :=
  List.length (filter is_CLP lines).

Definition is_NM1_QC (line : string) : bool :=
  has_tag "NM1" line && strict_eq (field line 1%nat) "QC".

Definition is_DTM (qualifier : string) (line : string) : bool :=
  has_tag "DTM" line && strict_eq (field line 1%nat) qualifier.

(** The last record of [lines] that satisfies [p]. *)
Definition last_such (p : string -> bool) (lines : list string)
  : option string :=
  fold_left (fun found l => if p l then Some l else found) lines None.

(** The patient name an NM1 segment gives, as the parser prints it. *)
Definition name_of_NM1 (line : string) : string :=
  template (field line 4%nat) ++ " " ++ template (field line 3%nat).

(** The patient name the NM1(QC) segments of a group give. *)
Definition patient_name_between (lines : list string) : option string :=
  option_map name_of_NM1 (last_such is_NM1_QC lines).

(** The service date the DTM segments with [qualifier] of a group give. *)
Definition service_date_between (qualifier : string) (lines : list string)
  : option (option string) :=
  option_map (fun l => parseX12Date (field l 2%nat))
             (last_such (is_DTM qualifier) lines).

(** A claim-detail record carries the data of its own CLP segment and of
    the records between that segment and the next CLP. *)
Definition carries (parseFloat : option string -> number)
  (group : string * list string) (c : ClaimDetail) : Prop :=
  let (clp, between) := group in
  claim_number c = field clp 1%nat /\
  claim_status_code c = field clp 2%nat /\
  total_charge_amount c = parseFloat (field clp 3%nat) /\
  total_paid_amount c = parseFloat (field clp 4%nat) /\
  patient_responsibility c = parseFloat (field clp 5%nat) /\
  claim_status_description c = getClaimStatusDescription (field clp 2%nat) /\
  patient_name c = patient_name_between between /\
  service_date_from c = service_date_between "232" between /\
  service_date_to c = service_date_between "233" between.

(** The patient name the specification asks for: the last-name field
    (field 3) followed by the first-name field (field 4). *)
Definition last_then_first (line : string) : string :=
  template (field line 3%nat) ++ " " ++ template (field line 4%nat).

(** What one record between two CLP segments does to the open
    accumulator. *)
Definition detail_step (c : ClaimDetail) (line : string) : ClaimDetail :=
  if is_NM1_QC line then set_patient_name (name_of_NM1 line) c
  else if is_DTM "232" line
  then set_service_date_from (parseX12Date (field line 2%nat)) c
  else if is_DTM "233" line
  then set_service_date_to (parseX12Date (field line 2%nat)) c
  else c.

(** The accumulator a CLP segment opens. *)
Definition seed (parseFloat : option string -> number) (clp : string)
  : ClaimDetail :=
  mkClaimDetail (field clp 1%nat) (field clp 2%nat)
    (parseFloat (field clp 3%nat)) (parseFloat (field clp 4%nat))
    (parseFloat (field clp 5%nat))
    (getClaimStatusDescription (field clp 2%nat)) None None None.

Definition build (parseFloat : option string -> number)
  (group : string * list string) : ClaimDetail :=
  fold_left detail_step (snd group) (seed parseFloat (fst group)).

(** The open accumulator, as the list a flush pushes. *)
Definition pending (cur : option ClaimDetail) : list ClaimDetail :=
  match cur with
  | Some c => [c]
  | None => []
  end.

End Segments.

(* ------------------------------------------------------------------ *)
(** ** Fixtures for the examples                                       *)
(* ------------------------------------------------------------------ *)

Module Fixtures.
Import Js.
Import Store.

Definition digit (c : ascii) : option Z :=
  let n := Z.of_nat (nat_of_ascii c) in
  if (48 <=? n) && (n <=? 57) then Some (n - 48) else None.

Fixpoint digits (s : string) (acc : Z) : option Z :=
  match s with
  | EmptyString => Some acc
  | String c rest =>
      match digit c with
      | Some d => digits rest (10 * acc + d)
      | None => None
      end
  end.

(** A reader for the amounts of the examples: [Number.parseFloat] on the
    literals [d+] and [d+.dd]; anything else reads as [NaN] here. *)
Definition readAmount (v : option string) : number :=
  match v with
  | None => NaN
  | Some s =>
      match split "."%char s with
      | [w] =>
          if String.eqb w "" then NaN
          else match digits w 0 with
               | Some n => Fin (100 * n)
               | None => NaN
               end
      | [w; f] =>
          if String.eqb w "" || negb (Nat.eqb (String.length f) 2) then NaN
          else match digits w 0, digits f 0 with
               | Some n, Some m => Fin (100 * n + m)
               | _, _ => NaN
               end
      | _ => NaN
      end
  end.

(** A file system holding one file. *)
Definition one_file (path content : string) (p : string)
  : ERAProcessor.outcome string :=
  if String.eqb p path then ERAProcessor.Returned content
  else ERAProcessor.Thrown "ENOENT: no such file or directory".

(** A remittance whose second CLP segment has no fields. *)
Definition truncated_remittance : string :=
  "TRN*1*ERA0001
CLP*CLM1*1*500.00*500.00*0.00
NM1*QC*1*DOE*JOHN
CLP".

(** A storage that accepts every request. *)
Definition accepts_all (s : db) (r : ERAProcessor.request) : option string :=
  None.

(** A storage that enforces [era_claim_details.claim_number NOT NULL]. *)
Definition claim_number_not_null (s : db) (r : ERAProcessor.request)
  : option string :=
  match r with
  | ERAProcessor.create_era_claim_details row =>
      match ecd_claim_number row with
      | None => Some "Column 'claim_number' cannot be null"
      | Some _ => None
      end
  | _ => None
  end.

Definition empty_table {A : Type} : table A := mkTable [] 1.

Definition empty_db : db :=
  mkDb empty_table empty_table empty_table empty_table empty_table
       empty_table [] [] [] [].

Definition noon (d : Z) : Date := mkDate d 43200000.

(** A claim in a given status with given charges. *)
Definition a_claim (id : Z) (number : string) (status : ClaimStatus)
  (charges : Z) : Claim :=
  mkClaim id number 1 1 None None None PROFESSIONAL 19700 19700
    charges (Fin 0) (Fin 0) status None None None
    (Some "J45.909") None None (Some "11") (Some "1234567890")
    (Some "1234567890") (Some 1%positive) (Some 1%positive).

(** The accumulator a CLP segment has opened. *)
Definition open_claim : ERAProcessor.ClaimDetail :=
  Segments.seed readAmount "CLP*CLM1*1*500.00*500.00*0.00".

End Fixtures.

(* ------------------------------------------------------------------ *)
(** ** The money invariant, as the specification states it             *)
(* ------------------------------------------------------------------ *)

Module Ledger.
Import Js.
Import Store.

Definition sum (l : list Z) : Z := fold_right Z.add 0 l.

(** The postings of a claim that have one of the given types. *)
Definition postings_of (claimId : Z) (types : PaymentType -> bool) (s : db)
  : list PaymentPosting :=
  filter (fun pp => (pp_claim_id pp =? claimId) && types (pp_payment_type pp))
         (rows (payment_postings s)).

(** total_paid: the sum of the claim's INSURANCE and PATIENT postings. *)
Definition total_paid (claimId : Z) (s : db) : Z :=
  sum (map pp_payment_amount
         (postings_of claimId Payments.is_insurance_or_patient s)).

(** total_adjustments: the sum of the claim's ADJUSTMENT postings. *)
Definition total_adjustments (claimId : Z) (s : db) : Z :=
  sum (map pp_payment_amount (postings_of claimId Payments.is_adjustment s)).

(** The stored aggregates of a claim agree with its postings. *)
Definition aggregates_hold (claimId : Z) (s : db) : Prop :=
  forall c : Claim,
    find_claim claimId s = Some c ->
    c_total_paid c = Fin (total_paid claimId s) /\
    c_patient_responsibility c
    = Fin (Z.max 0 (c_total_charges c - total_paid claimId s
                    - total_adjustments claimId s)).

End Ledger.

(* ------------------------------------------------------------------ *)
(** ** Example databases                                               *)
(* ------------------------------------------------------------------ *)

Module Examples.
Import Js.
Import Store.
Import Fixtures.

(** A manual INSURANCE posting by check, by user 1. *)
Definition a_posting (id claimId amount : Z) : PaymentPosting :=
  mkPaymentPosting id claimId None INSURANCE CHECK amount (noon 19700)
    None None None None None (Some 1%positive) (noon 19700).

(** A posting the remittance processor made: ERA, no poster. *)
Definition an_era_posting (id claimId amount : Z) : PaymentPosting :=
  mkPaymentPosting id claimId (Some 1) INSURANCE ERA amount (noon 19700)
    None None None None None None (noon 19700).

Definition with_totals (paid resp : Z) (c : Claim) : Claim :=
  set_totals (Fin paid) (Fin resp) c.

(** Two submitted claims; claim 1 (charges 500.00) has one posting of
    100.00 and aggregates that agree with it. *)
Definition two_claims : db :=
  mkDb (mkTable [ with_totals 10000 40000 (a_claim 1 "CLM1" SUBMITTED 50000);
                  with_totals 0 30000 (a_claim 2 "CLM2" SUBMITTED 30000) ] 3)
       empty_table
       (mkTable [ a_posting 1 1 10000 ] 2)
       empty_table empty_table empty_table
       [("era_auto_posting_enabled", Some "true")] [] [] [].

(** One submitted claim [number] with the given charges and no posting. *)
Definition one_claim (number : string) (charges : Z) : db :=
  mkDb (mkTable [ with_totals 0 charges (a_claim 1 number SUBMITTED charges) ]
          2)
       empty_table empty_table empty_table empty_table empty_table
       [("era_auto_posting_enabled", Some "true")] [] [] [].

(** A remittance with two claims. *)
Definition two_claim_remittance : string :=
  "BPR*I*650.00*C*ACH*CCP*01*999999992*DA*123456*1512345678**01*999988880*DA*98765*20240315
TRN*1*ERA0002*1512345678
N1*PR*ACME HEALTH
CLP*CLM1*1*500.00*450.00*50.00
NM1*QC*1*DOE*JOHN
DTM*232*20240301
DTM*233*20240302
CLP*CLM2*4*300.00*0.00*0.00
NM1*QC*1*ROE*JANE
DTM*232*2024031".

(** The same, the auto-posting flag being disabled. *)
Definition posting_disabled : db :=
  mkDb (claims two_claims) (claim_line_items two_claims)
       (payment_postings two_claims) (eras two_claims)
       (era_claim_details two_claims) (denials two_claims)
       [("era_auto_posting_enabled", Some "false")] [] [] [].

(** The same, the posting being one the remittance processor made. *)
Definition two_claims_era : db :=
  set_payment_postings (mkTable [ an_era_posting 1 1 10000 ] 2) two_claims.

(** A request body that posts [amount] to [claimId] by check. *)
Definition a_payment_body (claimId amount : Z) : Payments.PaymentBody :=
  Payments.mkPaymentBody (Some claimId) (Some "INSURANCE") (Some "CHECK")
    (Some amount) (Some (noon 19701)) None None None None None [].

End Examples.

(* ------------------------------------------------------------------ *)
(** ** Claim requests, as the specification reads them                 *)
(* ------------------------------------------------------------------ *)

Module ClaimRequests.
Import Js.
Import Store.
Import Claims.

(** The charge amount a submitted line item states. *)
Definition submitted_charge (item : LineItemBody) : Z :=
  match b_charge_amount item with
  | Some a => a
  | None => 0
  end.

(** The sum of the submitted line items' charge amounts. *)
Definition submitted_total (items : list LineItemBody) : Z :=
  Ledger.sum (map submitted_charge items).

(** A line item the create and update routes accept: it states a charge
    amount that is not negative, and a service date. *)
Definition acceptable (item : LineItemBody) : Prop :=
  (exists a, b_charge_amount item = Some a /\ 0 <= a) /\
  (exists d, b_service_date item = Some d).

(** A line item with a positive charge amount and a service date. *)
Definition has_positive_charge_and_date (item : LineItemBody) : Prop :=
  (exists a, b_charge_amount item = Some a /\ 0 < a) /\
  (exists d, b_service_date item = Some d).

(** A line item for procedure 99213 on a given day. *)
Definition a_line (charge : Z) : LineItemBody :=
  mkLineItemBody (Some 1) (Some "99213") None None None None
    None None None None (Some 19700) None (Some charge) None None [].

(** A claim request with the given line items. *)
Definition a_claim_body (items : list LineItemBody) : ClaimBody :=
  mkClaimBody (Some 1) (Some 1) None None None (Some "PROFESSIONAL")
    (Some 19700) (Some 19700) (Some "J45.909") None None (Some "11")
    (Some "1234567890") (Some "1234567890") (Some items) [].

End ClaimRequests.

(* ------------------------------------------------------------------ *)
(** ** A claim that is ready for submission                            *)
(* ------------------------------------------------------------------ *)

Module SubmissionExamples.
Import Js.
Import Store.
Import Fixtures.
Import Claims.

(** Claim 1 in DRAFT, with its patient, its coverage and one line. *)
Definition draft_db : db :=
  mkDb (mkTable [ a_claim 1 "CLM1" DRAFT 15000 ] 2)
       (mkTable [ mkClaimLineItem 1 1
                    (mkLineItem 1 (Some "99213") None None None None
                       None None None None (Some 19700) 1 15000 None None) ]
                2)
       empty_table empty_table empty_table empty_table []
       [ mkPatient 1 (Some "JOHN") (Some "DOE") (Some 7000) (Some "M") ]
       [ mkPatientInsurance 1 (Some "enc:POL123") 1 ]
       [ mkInsuranceProvider 1 (Some "PAYER01") ].

(** The same claim, already submitted. *)
Definition submitted_db : db :=
  set_claims (mkTable [ a_claim 1 "CLM1" SUBMITTED 15000 ] 2) draft_db.

(** A clearinghouse that accepts the claim. *)
Definition gateway_accepts
  (payload : option (Claim * Patient * PatientInsurance * InsuranceProvider)
             * list ClaimLineItem) : AxiosOutcome :=
  resolved (Some "CH-0001") (Some "RECEIVED") (Some "Claim received").

(** A clearinghouse that does not answer in time. *)
Definition gateway_times_out
  (payload : option (Claim * Patient * PatientInsurance * InsuranceProvider)
             * list ClaimLineItem) : AxiosOutcome :=
  rejected None "timeout of 30000ms exceeded".

End SubmissionExamples.

(* ------------------------------------------------------------------ *)
(** ** Remittance reconciliation, as the specification reads it        *)
(* ------------------------------------------------------------------ *)

Module Reconciliation.
Import Js.
Import Store.
Import ERAProcessor.

(** The stored claim a remittance detail is matched to: the claim with
    the detail's claim number. *)
Definition matched (d : ClaimDetail) (s : db) : option Claim :=
  find (fun c => strict_eq (claim_number d) (c_claim_number c))
       (rows (Store.claims s)).

(** The global auto-posting flag. *)
Definition auto_posting_enabled (s : db) : bool :=
  match lookup (system_settings s) "era_auto_posting_enabled" with
  | Some setting_value => strict_eq setting_value "true"
  | None => false
  end.

(** The payer status codes the static tables map. *)
Definition mapped_codes : list string := map fst claimStatusMap.

(** The claim detail a stored [era_claim_details] row records. *)
Definition recorded_detail (row : EraClaimDetail) : ClaimDetail :=
  mkClaimDetail (ecd_claim_number row) (ecd_claim_status_code row)
    (ecd_total_charge_amount row) (ecd_total_paid_amount row)
    (ecd_patient_responsibility row) (ecd_claim_status_description row)
    (ecd_patient_name row) (ecd_service_date_from row)
    (ecd_service_date_to row).

(** A code appears in a code list. *)
Definition listed (codes : list string) (code : option string) : Prop :=
  exists r, code = Some r /\ In r codes.

(** The category the four code lists give, OTHER when the code appears
    in none; a code in several lists takes the first in the order
    technical, clinical, authorization, eligibility. *)
Definition category_derived (code : option string) (c : DenialCategory)
  : Prop :=
  (listed technicalCodes code -> c = TECHNICAL) /\
  (~ listed technicalCodes code -> listed clinicalCodes code ->
   c = CLINICAL) /\
  (~ listed technicalCodes code -> ~ listed clinicalCodes code ->
   listed authorizationCodes code -> c = AUTHORIZATION) /\
  (~ listed technicalCodes code -> ~ listed clinicalCodes code ->
   ~ listed authorizationCodes code -> listed eligibilityCodes code ->
   c = ELIGIBILITY) /\
  (~ listed technicalCodes code -> ~ listed clinicalCodes code ->
   ~ listed authorizationCodes code -> ~ listed eligibilityCodes code ->
   c = OTHER).

(** The priority the urgent and high lists give, MEDIUM by default. *)
Definition priority_derived (code : option string) (p : Priority) : Prop :=
  (listed urgentCodes code -> p = URGENT) /\
  (~ listed urgentCodes code -> listed highPriorityCodes code -> p = HIGH) /\
  (~ listed urgentCodes code -> ~ listed highPriorityCodes code ->
   p = MEDIUM).

(** The posting [autoPostPayment] inserts for [amount] cents. *)
Definition era_posting (now : Date) (claimId eraId : Z) (d : ClaimDetail)
  (amount : Z) (id : Z) : PaymentPosting :=
  mkPaymentPosting id claimId (Some eraId) INSURANCE ERA amount now
    None (claim_number d) None None None None now.

(** The row [processERAClaim] inserts into [era_claim_details]. *)
Definition detail_row (eraId : Z) (claim : option Claim) (d : ClaimDetail)
  (id : Z) : EraClaimDetail :=
  mkEraClaimDetail id eraId
    (match claim with Some c => Some (c_id c) | None => None end)
    (claim_number d) (patient_name d) (service_date_from d)
    (service_date_to d) (total_charge_amount d) (total_paid_amount d)
    (patient_responsibility d) (claim_status_code d)
    (claim_status_description d).

(** The row [createDenialRecord] inserts into [denials]. *)
Definition denial_row (now : Date) (claimId : Z) (d : ClaimDetail) (id : Z)
  : Denial :=
  mkDenial id claimId now (claim_status_code d) (claim_status_description d)
    (categorizeDenial (claim_status_code d))
    (getDenialPriority (claim_status_code d)) OPEN
    (addDays now 90) (addDays now 14).

(** The steps of [processERAClaim] for a detail matched to claim [c],
    on a storage that accepts every request. *)
Definition recorded (eraId : Z) (c : Claim) (d : ClaimDetail) (s : db) : db :=
  set_era_claim_details
    (snd (insert (detail_row eraId (Some c) d) (era_claim_details s))) s.

Definition posted (now : Date) (eraId : Z) (c : Claim) (d : ClaimDetail)
  (s : db) : db :=
  match total_paid_amount d with
  | Fin amount =>
      if auto_posting_enabled s && (0 <? amount)
      then set_payment_postings
             (snd (insert (era_posting now (c_id c) eraId d amount)
                     (payment_postings s))) s
      else s
  | NaN => s
  end.

Definition status_updated (c : Claim) (d : ClaimDetail) (s : db) : db :=
  set_claims
    (update_where c_id (c_id c)
       (set_remittance_result
          (mapERAStatusToClaimStatus (claim_status_code d))
          (total_paid_amount d) (patient_responsibility d))
       (Store.claims s)) s.

Definition denied (now : Date) (c : Claim) (d : ClaimDetail) (s : db) : db :=
  if isClaimDenied (claim_status_code d)
  then set_denials
         (snd (insert (denial_row now (c_id c) d) (denials s))) s
  else s.

(** The message a failed step reports is one the storage gave. *)
Definition from_storage (storage_error : db -> request -> option string)
  (error : string) : Prop :=
  exists s0 r, storage_error s0 r = Some error.

(** The reading of ingestion failure that the code does not meet: a
    failed run leaves every remittance record it added marked ERROR and
    no claim-detail record behind. *)
Definition fails_as_a_whole
  (parseFloat : option string -> number)
  (readFile : string -> outcome string)
  (storage_error : db -> request -> option string) : Prop :=
  forall (now : Date) (filePath fileName : string) (s s' : db)
         (error : string),
    processERAFile parseFloat readFile storage_error now filePath fileName s
    = (Failure error, s') ->
    rows (era_claim_details s') = rows (era_claim_details s) /\
    (forall e, In e (rows (eras s')) -> ~ In e (rows (eras s)) ->
               e_processing_status e = ERROR).

End Reconciliation.

(* ------------------------------------------------------------------ *)
(** ** The remittance header, as the wire format defines it            *)
(* ------------------------------------------------------------------ *)

Module Header.
Import Js.
Import ERAProcessor.
Import Segments.

(** The tags the parser consumes. *)
Definition consumed_tags : list string :=
  ["BPR"; "TRN"; "N1"; "CLP"; "NM1"; "DTM"].

(** A record whose tag the parser consumes. *)
Definition is_consumed (line : string) : bool :=
  existsb (fun tag => has_tag tag line) consumed_tags.

(** An N1 segment qualified as payer. *)
Definition is_N1_PR (line : string) : bool :=
  has_tag "N1" line && strict_eq (field line 1%nat) "PR".

(** The header the records of a remittance define: the trace number of
    the last TRN segment, the name of the last N1(PR) segment, and the
    amount and date of the last BPR segment. *)
Definition header_of (parseFloat : option string -> number)
  (lines : list string) : EraData :=
  mkEraData
    (match last_such (has_tag "TRN") lines with
     | Some l => field l 2%nat
     | None => Some ""
     end)
    ""
    (match last_such is_N1_PR lines with
     | Some l => field l 2%nat
     | None => Some ""
     end)
    ""
    (match last_such (has_tag "BPR") lines with
     | Some l => parseX12Date (field l 16%nat)
     | None => None
     end)
    (match last_such (has_tag "BPR") lines with
     | Some l => parseFloat (field l 2%nat)
     | None => Fin 0
     end)
    [].

(** The header of [eraData], without its claims. *)
Definition header (d : EraData) : EraData :=
  mkEraData (era_number d) (payer_id d) (payer_name d) (check_number d)
    (check_date d) (check_amount d) [].

(** What one record does to the header. *)
Definition header_step (parseFloat : option string -> number)
  (h : EraData) (line : string) : EraData :=
  if has_tag "BPR" line
  then set_check (parseFloat (field line 2%nat))
         (parseX12Date (field line 16%nat)) h
  else if has_tag "TRN" line then set_era_number (field line 2%nat) h
  else if is_N1_PR line then set_payer_name (field line 2%nat) h
  else h.

(** The text of an ISO date without its two hyphens. *)
Definition digits_of_iso (iso : string) : string :=
  substring 0 4 iso ++ substring 5 2 iso ++ substring 8 2 iso.

End Header.

(* ------------------------------------------------------------------ *)
(** ** What a remittance ingestion leaves in the tables                *)
(* ------------------------------------------------------------------ *)

Module Footprint.
Import Js.
Import Store.
Import ERAProcessor.
Import Reconciliation.

(** A posting as the remittance processor makes them: INSURANCE, by ERA,
    without a poster, for a positive amount. *)
Definition era_made (p : PaymentPosting) : Prop :=
  pp_payment_type p = INSURANCE /\
  pp_payment_method p = ERA /\
  pp_posted_by p = None /\
  0 < pp_payment_amount p.

(** A denial as the remittance processor makes them. *)
Definition remittance_denial (dn : Denial) : Prop :=
  d_resolution_status dn = OPEN /\
  d_denial_category dn = OTHER /\
  d_priority dn = MEDIUM /\
  isClaimDenied (d_denial_reason_code dn) = true.

(** The part of a claim the remittance processor never writes. *)
Definition claim_core (c : Claim) : Claim :=
  set_remittance_result DRAFT (Fin 0) (Fin 0) c.

(** [s'] comes from [s] by appending postings, denials and claim-detail
    records of these kinds and by rewriting the status, total_paid and
    patient_responsibility of claims; the table of remittances aside,
    nothing else differs. *)
Definition footprint (s s' : db) : Prop :=
  claim_line_items s' = claim_line_items s /\
  system_settings s' = system_settings s /\
  patients s' = patients s /\
  patient_insurance s' = patient_insurance s /\
  insurance_providers s' = insurance_providers s /\
  map claim_core (rows (Store.claims s'))
  = map claim_core (rows (Store.claims s)) /\
  (exists ps, rows (payment_postings s')
              = (rows (payment_postings s) ++ ps)%list /\
              Forall era_made ps) /\
  (exists ds, rows (denials s') = (rows (denials s) ++ ds)%list /\
              Forall remittance_denial ds) /\
  (exists es, rows (era_claim_details s')
              = (rows (era_claim_details s) ++ es)%list).

(** A step of the processor that stays within the footprint, whether it
    returns or throws. *)
Definition keeps {A : Type} (m : M A) : Prop :=
  forall s : db, footprint s (snd (m s)).

End Footprint.

(* ------------------------------------------------------------------ *)
(** ** Invariants of the postings table                                *)
(* ------------------------------------------------------------------ *)

Module Amounts.
Import Js.
Import Store.

(** No posting has a negative amount. *)
Definition amounts_nonneg (s : db) : Prop :=
  Forall (fun p => 0 <= pp_payment_amount p) (rows (payment_postings s)).

(** No posting has the id the next insertion will take. *)
Definition next_posting_id_is_fresh (s : db) : Prop :=
  Forall (fun p => pp_id p <> auto_increment (payment_postings s))
         (rows (payment_postings s)).

(** What a posting of type [t] and amount [a] adds to total_paid. *)
Definition paid_part (t : PaymentType) (a : Z) : Z :=
  if Payments.is_insurance_or_patient t then a else 0.

(** What a posting of type [t] and amount [a] adds to the adjustments. *)
Definition adjustment_part (t : PaymentType) (a : Z) : Z :=
  if Payments.is_adjustment t then a else 0.

End Amounts.

(* ------------------------------------------------------------------ *)
(** ** [routes/claims.js]: deleting a claim                            *)
(* ------------------------------------------------------------------ *)

Module ClaimDeletion.
Import Js.
Import Store.
Import Http.

Definition is_draft (s : ClaimStatus) : bool :=
  match s with
  | DRAFT => true
  | _ => false
  end.

(** [router.delete("/:id")]: delete a claim (only if in DRAFT status). *)
Definition delete_claim (id : Z) (s : db) : Response * db :=
  match find_claim id s with
  | None => (mkResponse 404 (error_message "Claim not found"), s)
  | Some claim =>
      if negb (is_draft (c_claim_status claim))
      then (mkResponse 400
              (error_message "Only draft claims can be deleted"), s)
      else
        let s1 :=
          set_claim_line_items
            (delete_where cli_claim_id id (claim_line_items s)) s in
        let s2 := set_claims (delete_where c_id id (claims s1)) s1 in
        (mkResponse 200 (success_message "Claim deleted successfully"), s2)
  end.

(** The line items of a claim, as stored. *)
Definition lines_of (claimId : Z) (s : db) : list ClaimLineItem :=
  filter (fun r => cli_claim_id r =? claimId) (rows (claim_line_items s)).

(** The line items of the other claims, as stored. *)
Definition lines_of_others (claimId : Z) (s : db) : list ClaimLineItem :=
  filter (fun r => negb (cli_claim_id r =? claimId))
         (rows (claim_line_items s)).

(** A stored line item that submission refuses: its charge is not
    positive. *)
Definition without_positive_charge (r : ClaimLineItem) : Prop :=
  charge_amount (cli_item r) <= 0.

(** No claim has the id the next claim will take, and no line item
    refers to it. *)
Definition next_claim_id_is_fresh (s : db) : Prop :=
  Forall (fun c => c_id c <> auto_increment (claims s)) (rows (claims s)) /\
  Forall (fun r => cli_claim_id r <> auto_increment (claims s))
         (rows (claim_line_items s)).

End ClaimDeletion.

(* ------------------------------------------------------------------ *)
(** ** [routes/denials.js]: the denial workflow routes                 *)
(* ------------------------------------------------------------------ *)

Module Denials.
Import Js.
Import Store.
Import Http.
Import Claims.

Inductive Role : Type :=
| ADMIN | MANAGER | BILLER | COLLECTOR | VIEWER.

(** Table [users], as far as the denial routes read it. *)
Record User : Type := mkUser { u_id : Z; u_role : Role }.

(** A row of [denials] with the workflow columns, which
    [createDenialRecord] leaves NULL. *)
Record DenialRow : Type := mkDenialRow {
  dr_denial : Denial;
  dr_assigned_to : option Z;
  dr_resolution_notes : option string;
  dr_resolution_date : option Date;
  dr_updated_by : option user_id
}.

(** The row a denial of the remittance processor is stored as. *)
Definition unassigned (d : Denial) : DenialRow :=
  mkDenialRow d None None None None.

Definition dr_id (r : DenialRow) : Z := d_id (dr_denial r).

Definition dr_resolution_status (r : DenialRow) : ResolutionStatus :=
  d_resolution_status (dr_denial r).

(** The tables the denial routes work on. *)
Record desk : Type := mkDesk {
  denial_rows : table DenialRow;
  users : list User
}.

(** A request body for [updateSchema]; an absent key is [None]. *)
Record UpdateBody : Type := mkUpdateBody {
  resolution_status : option string;
  assigned_to : option Z;
  priority : option string;
  resolution_notes : option string;
  follow_up_date : option Date;
  unknown_keys : list string
}.

(** The validated [value]. *)
Record Update : Type := mkUpdate {
  v_resolution_status : option ResolutionStatus;
  v_assigned_to : option Z;
  v_priority : option Priority;
  v_resolution_notes : option string;
  v_follow_up_date : option Date
}.

Definition resolution_status_of (s : string) : option ResolutionStatus :=
  if String.eqb s "OPEN" then Some OPEN
  else if String.eqb s "IN_PROGRESS" then Some IN_PROGRESS
  else if String.eqb s "APPEALED" then Some APPEALED_DENIAL
  else if String.eqb s "CORRECTED" then Some CORRECTED
  else if String.eqb s "WRITTEN_OFF" then Some WRITTEN_OFF
  else if String.eqb s "RESOLVED" then Some RESOLVED
  else None.

Definition priority_of (s : string) : option Priority :=
  if String.eqb s "LOW" then Some LOW
  else if String.eqb s "MEDIUM" then Some MEDIUM
  else if String.eqb s "HIGH" then Some HIGH
  else if String.eqb s "URGENT" then Some URGENT
  else None.

(** [updateSchema.validate(body)] *)
Definition updateSchema_validate (b : UpdateBody) : JoiError + Update :=
  st <-- match resolution_status b with
         | Some text =>
             match resolution_status_of text with
             | Some st => inr (Some st)
             | None => inl (is_invalid "resolution_status")
             end
         | None => inr None
         end ;
  pr <-- match priority b with
         | Some text =>
             match priority_of text with
             | Some p => inr (Some p)
             | None => inl (is_invalid "priority")
             end
         | None => inr None
         end ;
  notes <-- Claims.optional_string "resolution_notes" 1000
              (resolution_notes b) ;
  match unknown_keys b with
  | key :: _ => inl (is_not_allowed key)
  | [] => inr (mkUpdate st (assigned_to b) pr notes (follow_up_date b))
  end.

Definition set_workflow (status : ResolutionStatus) (pr : Priority)
  (follow_up : Date) (d : Denial) : Denial :=
  mkDenial (d_id d) (d_claim_id d) (d_denial_date d)
    (d_denial_reason_code d) (d_denial_reason_description d)
    (d_denial_category d) pr status (d_appeal_deadline d) follow_up.

Definition or_keep {A : Type} (new : option A) (old : A) : A :=
  match new with
  | Some v => v
  | None => old
  end.

Definition status_is_RESOLVED (s : ResolutionStatus) : bool :=
  match s with
  | RESOLVED => true
  | _ => false
  end.

(** [value.resolution_status === "RESOLVED"] *)
Definition asks_RESOLVED (v : option ResolutionStatus) : bool :=
  match v with
  | Some st => status_is_RESOLVED st
  | None => false
  end.

(** [UPDATE denials SET ...updateData]: the keys of [value], [updated_by]
    and, when the denial becomes RESOLVED, [resolution_date]. *)
Definition updateData (value : Update) (user : user_id) (now : Date)
  (existingDenial : DenialRow) (r : DenialRow) : DenialRow :=
  mkDenialRow
    (set_workflow
       (or_keep (v_resolution_status value) (dr_resolution_status r))
       (or_keep (v_priority value) (d_priority (dr_denial r)))
       (or_keep (v_follow_up_date value) (d_follow_up_date (dr_denial r)))
       (dr_denial r))
    (Payments.keep (v_assigned_to value) (dr_assigned_to r))
    (Payments.keep (v_resolution_notes value) (dr_resolution_notes r))
    (if asks_RESOLVED (v_resolution_status value)
        && negb (status_is_RESOLVED (dr_resolution_status existingDenial))
     then Some now else dr_resolution_date r)
    (Some user).

(** Modelled from the spec: [update(entity, id, fields)] returns whether
    a row has the id. *)
Definition updated (id : Z) (t : table DenialRow) : bool :=
  match find_by dr_id id t with
  | Some _ => true
  | None => false
  end.

Definition set_denial_rows (t : table DenialRow) (s : desk) : desk :=
  mkDesk t (users s).

(** [router.put("/:id")]: update denial status and assignment. *)
Definition put_denial (user : user_id) (now : Date) (id : Z)
  (b : UpdateBody) (s : desk) : Response * desk :=
  match updateSchema_validate b with
  | inl error => (mkResponse 400 (error_validation error), s)
  | inr value =>
      match find_by dr_id id (denial_rows s) with
      | None => (mkResponse 404 (error_message "Denial not found"), s)
      | Some existingDenial =>
          if negb (updated id (denial_rows s))
          then (mkResponse 400 (error_message "Failed to update denial"), s)
          else
            (mkResponse 200 (success_message "Denial updated successfully"),
             set_denial_rows
               (update_where dr_id id
                  (updateData value user now existingDenial)
                  (denial_rows s)) s)
      end
  end.

(** [["ADMIN", "MANAGER", "BILLER", "COLLECTOR"].includes(user.role)] *)
Definition may_handle_denials (r : Role) : bool :=
  match r with
  | ADMIN | MANAGER | BILLER | COLLECTOR => true
  | VIEWER => false
  end.

(** [!assigned_to] for a number that may be absent. *)
Definition no_assignee (assigned_to : option Z) : bool :=
  match assigned_to with
  | None => true
  | Some n => n =? 0
  end.

(** [UPDATE denials SET assigned_to, resolution_status = IN_PROGRESS,
    updated_by] *)
Definition assign_to (assignee : Z) (user : user_id) (r : DenialRow)
  : DenialRow :=
  mkDenialRow
    (set_workflow IN_PROGRESS (d_priority (dr_denial r))
       (d_follow_up_date (dr_denial r)) (dr_denial r))
    (Some assignee) (dr_resolution_notes r) (dr_resolution_date r)
    (Some user).

(** The checks both assignment routes make on the assignee. *)
Definition check_assignee (assigned_to : option Z) (s : desk)
  : Response + Z :=
  match assigned_to with
  | None => inl (mkResponse 400 (error_message "User ID is required"))
  | Some assignee =>
      if assignee =? 0
      then inl (mkResponse 400 (error_message "User ID is required"))
      else
        match find (fun u => u_id u =? assignee) (users s) with
        | None => inl (mkResponse 404 (error_message "User not found"))
        | Some u =>
            if negb (may_handle_denials (u_role u))
            then inl (mkResponse 400
                        (error_message
                           "User does not have permission to handle denials"))
            else inr assignee
        end
  end.

(** [router.post("/:id/assign")]: assign a denial to a user. *)
Definition post_assign (user : user_id) (id : Z) (assigned_to : option Z)
  (s : desk) : Response * desk :=
  match check_assignee assigned_to s with
  | inl response => (response, s)
  | inr assignee =>
      if negb (updated id (denial_rows s))
      then (mkResponse 400 (error_message "Failed to assign denial"), s)
      else
        (mkResponse 200 (success_message "Denial assigned successfully"),
         set_denial_rows
           (update_where dr_id id (assign_to assignee user) (denial_rows s))
           s)
  end.

(** One entry of [results] in the bulk assignment. *)
Inductive AssignResult : Type :=
| assign_SUCCESS (denial_id : Z)
| assign_ERROR (denial_id : Z) (error : string).

(** The body of the loop of [router.post("/bulk-assign")]. *)
Definition bulk_assign_item (user : user_id) (assignee : Z)
  (st : list AssignResult * desk) (denialId : Z)
  : list AssignResult * desk :=
  let (results, s) := st in
  if updated denialId (denial_rows s)
  then ((results ++ [assign_SUCCESS denialId])%list,
        set_denial_rows
          (update_where dr_id denialId (assign_to assignee user)
             (denial_rows s)) s)
  else ((results ++ [assign_ERROR denialId "Update failed"])%list, s).

(** [router.post("/bulk-assign")]: the results, or the refusal. *)
Definition post_bulk_assign (user : user_id) (denial_ids : list Z)
  (assigned_to : option Z) (s : desk)
  : (Response + list AssignResult) * desk :=
  match denial_ids with
  | [] => (inl (mkResponse 400
                  (error_message "Denial IDs array is required")), s)
  | _ =>
      match check_assignee assigned_to s with
      | inl response => (inl response, s)
      | inr assignee =>
          let (results, s') :=
            fold_left (bulk_assign_item user assignee) denial_ids ([], s) in
          (inr results, s')
      end
  end.

End Denials.

(* ------------------------------------------------------------------ *)
(** ** A denial desk                                                   *)
(* ------------------------------------------------------------------ *)

Module DenialExamples.
Import Js.
Import Store.
Import Fixtures.
Import Denials.

(** A denial of claim 1 as the remittance processor stores it. *)
Definition a_denial (id : Z) (status : ResolutionStatus) : DenialRow :=
  unassigned
    (mkDenial id 1 (noon 19710) (Some "4") "Denied" OTHER MEDIUM status
       (noon 19800) (noon 19724)).

(** Two open denials; user 7 is a biller, user 9 a viewer. *)
Definition a_desk : desk :=
  mkDesk (mkTable [ a_denial 1 OPEN; a_denial 2 OPEN ] 3)
         [ mkUser 7 BILLER; mkUser 9 VIEWER ].

(** A request that only sets the resolution status. *)
Definition status_update (status : string) : UpdateBody :=
  mkUpdateBody (Some status) None None None None [].

(** A request that only sets the assignee. *)
Definition assignee_update (assignee : Z) : UpdateBody :=
  mkUpdateBody None (Some assignee) None None None [].

End DenialExamples.

(* ------------------------------------------------------------------ *)
(** ** The remittance parser                                           *)
(* ------------------------------------------------------------------ *)

Section ParserFacts.
Import Js ERAProcessor Segments.

Variable parseFloat : option string -> number.

Lemma strict_eq_true (v : option string) (lit : string) :
  strict_eq v lit = true -> v = Some lit.
Proof.
  destruct v as [s|]; simpl; [|discriminate].
  intro H. apply String.eqb_eq in H. now subst.
Qed.

Lemma parseLine_CLP (d : EraData) (cur : option ClaimDetail) (l : string) :
  is_CLP l = true ->
  parseLine parseFloat (d, cur) l =
  (match cur with Some c => push_claim c d | None => d end,
   Some (seed parseFloat l)).
Proof.
  unfold is_CLP, has_tag, field. intro H.
  apply strict_eq_true in H.
  unfold parseLine, seed, field. cbv beta zeta.
  rewrite H. reflexivity.
Qed.

(** Case analysis on the text a tag or qualifier is compared with. *)
Ltac split_on_literals t :=
  repeat match goal with
  | |- context [String.eqb t ?lit] =>
      let E := fresh "E" in
      destruct (String.eqb t lit) eqn:E;
      [ apply String.eqb_eq in E; subst t; simpl | ]
  end.

Lemma parseLine_other (d : EraData) (cur : option ClaimDetail) (l : string) :
  is_CLP l = false ->
  exists d',
    parseLine parseFloat (d, cur) l
    = (d', option_map (fun c => detail_step c l) cur)
    /\ claims d' = claims d.
Proof.
  unfold is_CLP, detail_step, is_NM1_QC, is_DTM, has_tag, name_of_NM1, field.
  unfold parseLine. cbv beta zeta.
  generalize (nth_error (split STAR l) 1) (nth_error (split STAR l) 2)
             (nth_error (split STAR l) 3) (nth_error (split STAR l) 4)
             (nth_error (split STAR l) 16).
  intros f1 f2 f3 f4 f16.
  destruct (nth_error (split STAR l) 0) as [t|]; simpl.
  2:{ intros _. exists d. destruct cur; split; reflexivity. }
  split_on_literals t; intro H; try discriminate H;
    destruct cur as [c|]; simpl;
    destruct f1 as [q|]; simpl;
    try split_on_literals q;
    eexists; split; reflexivity.
Qed.

(** The loop, from any state: the claims already pushed, then the open
    accumulator completed by the records up to the next CLP, then one
    claim for every later CLP segment. *)
Lemma parse_loop (lines : list string) :
  forall (d : EraData) (cur : option ClaimDetail),
    let (d', cur') := fold_left (parseLine parseFloat) lines (d, cur) in
    (claims d' ++ pending cur')%list =
    (claims d
     ++ pending (option_map
                   (fun c => fold_left detail_step (until_next_CLP lines) c)
                   cur)
     ++ map (build parseFloat) (claim_groups lines))%list.
Proof.
  induction lines as [|l rest IH]; intros d cur.
  - simpl. destruct cur; simpl; now rewrite ?app_nil_r.
  - cbn [fold_left claim_groups until_next_CLP].
    destruct (is_CLP l) eqn:E.
    + rewrite parseLine_CLP by exact E.
      specialize (IH (match cur with Some c => push_claim c d | None => d end)
                     (Some (seed parseFloat l))).
      destruct (fold_left (parseLine parseFloat) rest _) as [d' cur'].
      rewrite IH. destruct cur as [c|]; simpl.
      * now rewrite <- app_assoc.
      * reflexivity.
    + destruct (parseLine_other d cur l E) as [d1 [Hstep Hclaims]].
      rewrite Hstep.
      specialize (IH d1 (option_map (fun c => detail_step c l) cur)).
      destruct (fold_left (parseLine parseFloat) rest _) as [d' cur'].
      rewrite IH, Hclaims. destruct cur; reflexivity.
Qed.

Lemma parseERAFile_claims (fileContent : string) :
  claims (parseERAFile parseFloat fileContent)
  = map (build parseFloat) (claim_groups (split LF fileContent)).
Proof.
  unfold parseERAFile.
  pose proof (parse_loop (split LF fileContent) emptyEraData None) as H.
  destruct (fold_left (parseLine parseFloat) _ _) as [d' cur'].
  simpl in H. rewrite <- H.
  destruct cur'; simpl; now rewrite ?app_nil_r.
Qed.

Lemma claim_groups_length (lines : list string) :
  List.length (claim_groups lines) = count_CLP lines.
Proof.
  unfold count_CLP.
  induction lines as [|l rest IH]; simpl; [reflexivity|].
  destruct (is_CLP l); simpl; now rewrite IH.
Qed.

(** What the records of a group leave in the accumulator. *)
Lemma fold_detail_step (between : list string) :
  forall c : ClaimDetail,
    let c' := fold_left detail_step between c in
    claim_number c' = claim_number c /\
    claim_status_code c' = claim_status_code c /\
    total_charge_amount c' = total_charge_amount c /\
    total_paid_amount c' = total_paid_amount c /\
    patient_responsibility c' = patient_responsibility c /\
    claim_status_description c' = claim_status_description c /\
    patient_name c'
    = fold_left (fun found l => if is_NM1_QC l then Some (name_of_NM1 l)
                                else found) between (patient_name c) /\
    service_date_from c'
    = fold_left (fun found l =>
                   if is_DTM "232" l then Some (parseX12Date (field l 2%nat))
                   else found) between (service_date_from c) /\
    service_date_to c'
    = fold_left (fun found l =>
                   if is_DTM "233" l then Some (parseX12Date (field l 2%nat))
                   else found) between (service_date_to c).
Proof.
  induction between as [|l rest IH]; intro c.
  - simpl. repeat split.
  - simpl. specialize (IH (detail_step c l)). simpl in IH.
    destruct IH as (H1 & H2 & H3 & H4 & H5 & H6 & H7 & H8 & H9).
    rewrite H1, H2, H3, H4, H5, H6, H7, H8, H9.
    unfold detail_step.
    destruct (is_NM1_QC l) eqn:EN.
    + assert (is_DTM "232" l = false /\ is_DTM "233" l = false) as [D1 D2].
      { unfold is_NM1_QC, is_DTM, has_tag in *.
        apply andb_true_iff in EN. destruct EN as [EN _].
        apply strict_eq_true in EN. rewrite EN. split; reflexivity. }
      rewrite D1, D2. simpl. repeat split.
    + destruct (is_DTM "232" l) eqn:E1.
      * assert (is_DTM "233" l = false) as D2.
        { unfold is_DTM, has_tag in *.
          apply andb_true_iff in E1. destruct E1 as [_ E1].
          apply strict_eq_true in E1. rewrite E1.
          now rewrite andb_false_r. }
        rewrite D2. simpl. repeat split.
      * destruct (is_DTM "233" l); simpl; repeat split.
Qed.

Lemma fold_last_such {A : Type} (p : string -> bool) (f : string -> A)
  (lines : list string) :
  forall (found : option string),
    fold_left (fun acc l => if p l then Some (f l) else acc) lines
              (option_map f found)
    = option_map f
        (fold_left (fun acc l => if p l then Some l else acc) lines found).
Proof.
  induction lines as [|l rest IH]; intro found; simpl; [reflexivity|].
  destruct (p l); [apply (IH (Some l)) | apply IH].
Qed.

Lemma build_carries (group : string * list string) :
  carries parseFloat group (build parseFloat group).
Proof.
  destruct group as [clp between]. unfold carries, build. simpl.
  destruct (fold_detail_step between (seed parseFloat clp))
    as (H1 & H2 & H3 & H4 & H5 & H6 & H7 & H8 & H9).
  rewrite H1, H2, H3, H4, H5, H6, H7, H8, H9. simpl.
  unfold patient_name_between, service_date_between, last_such.
  repeat split.
  - apply (fold_last_such is_NM1_QC name_of_NM1 between None).
  - apply (fold_last_such (is_DTM "232")
             (fun l => parseX12Date (field l 2%nat)) between None).
  - apply (fold_last_such (is_DTM "233")
             (fun l => parseX12Date (field l 2%nat)) between None).
Qed.


End ParserFacts.

Section PatientName.
Import Js ERAProcessor Segments Fixtures.

(** C10, as amended. For every NM1 segment with qualifier QC processed
    while a claim accumulator is open, the parser sets the accumulator's
    patient_name to the first-name field (field 4) followed by the
    last-name field (field 3), in that order, separated by a space; the
    rest of the state is unchanged. *)
Theorem nm1_sets_first_then_last_name
  (parseFloat : option string -> number) (d : EraData) (c : ClaimDetail)
  (line : string) :
  is_NM1_QC line = true ->
  parseLine parseFloat (d, Some c) line
  = (d, Some (set_patient_name
                (template (field line 4%nat) ++ " "
                 ++ template (field line 3%nat)) c)).
Proof.
  intro H.
  assert (is_CLP line = false) as HC.
  { unfold is_NM1_QC, is_CLP, has_tag in *.
    apply andb_true_iff in H. destruct H as [H _].
    apply strict_eq_true in H. now rewrite H. }
  destruct (parseLine_other parseFloat d (Some c) line HC) as [d' [E _]].
  assert (d' = d) as ->.
  { revert E. unfold parseLine. cbv beta zeta.
    unfold is_NM1_QC, has_tag, field in H.
    apply andb_true_iff in H. destruct H as [H1 H2].
    apply strict_eq_true in H1. rewrite H1, H2. simpl. congruence. }
  rewrite E. simpl. unfold detail_step. now rewrite H.
Qed.

Lemma nm1_sets_first_then_last_name_witness :
  is_NM1_QC "NM1*QC*1*DOE*JOHN" = true /\
  parseLine readAmount (emptyEraData, Some open_claim) "NM1*QC*1*DOE*JOHN"
  = (emptyEraData, Some (set_patient_name "JOHN DOE" open_claim)).
Proof.
  split; [reflexivity|].
  apply (nm1_sets_first_then_last_name readAmount emptyEraData open_claim
           "NM1*QC*1*DOE*JOHN").
  reflexivity.
Defined.

(** C10 as stated fails: for the segment NM1*QC*1*DOE*JOHN (last name
    DOE in field 3, first name JOHN in field 4) the parser stores
    JOHN DOE, not DOE JOHN. *)
Lemma nm1_name_not_last_then_first :
  is_NM1_QC "NM1*QC*1*DOE*JOHN" = true /\
  option_map patient_name
    (snd (parseLine readAmount (emptyEraData, Some open_claim)
            "NM1*QC*1*DOE*JOHN"))
  = Some (Some "JOHN DOE") /\
  last_then_first "NM1*QC*1*DOE*JOHN" = "DOE JOHN" /\
  option_map patient_name
    (snd (parseLine readAmount (emptyEraData, Some open_claim)
            "NM1*QC*1*DOE*JOHN"))
  <> Some (Some (last_then_first "NM1*QC*1*DOE*JOHN")).
Proof.
  repeat split; try reflexivity.
  vm_compute. discriminate.
Qed.

End PatientName.

(* ------------------------------------------------------------------ *)
(** ** The payment routes and the money invariant                      *)
(* ------------------------------------------------------------------ *)

Section LedgerFacts.
Import Js Store Http Payments Ledger.

Lemma fold_left_add {A : Type} (f : A -> Z) (l : list A) :
  forall a : Z,
    fold_left (fun acc r => acc + f r) l a = a + sum (map f l).
Proof.
  induction l as [|x l IH]; intro a; simpl.
  - lia.
  - rewrite IH. lia.
Qed.

Lemma or_zero_SUM {A : Type} (f : A -> Z) (l : list A) :
  or_zero (SUM f l) = sum (map f l).
Proof.
  destruct l as [|x l]; [reflexivity|].
  unfold SUM, or_zero. now rewrite fold_left_add.
Qed.

Lemma sum_case_when {A : Type} (q p : A -> bool) (g : A -> Z) (l : list A) :
  sum (map (fun r => if p r then g r else 0) (filter q l))
  = sum (map g (filter (fun r => q r && p r) l)).
Proof.
  induction l as [|x l IH]; simpl; [reflexivity|].
  destruct (q x); simpl; [|exact IH].
  destruct (p x); simpl; rewrite IH; reflexivity.
Qed.

Lemma find_update_where {A : Type} (id_of : A -> Z) (id id' : Z)
  (f : A -> A) (t : table A) :
  (forall r, id_of (f r) = id_of r) ->
  find_by id_of id' (update_where id_of id f t)
  = if id' =? id then option_map f (find_by id_of id' t)
    else find_by id_of id' t.
Proof.
  intro Hid. unfold find_by, update_where. simpl.
  induction (rows t) as [|r l IH]; simpl.
  - now destruct (id' =? id).
  - destruct (id_of r =? id) eqn:E1.
    + rewrite Hid. destruct (id_of r =? id') eqn:E2.
      * apply Z.eqb_eq in E1, E2.
        replace (id' =? id) with true by (symmetry; apply Z.eqb_eq; lia).
        reflexivity.
      * exact IH.
    + destruct (id_of r =? id') eqn:E2; [|exact IH].
      apply Z.eqb_eq in E2. apply Z.eqb_neq in E1.
      replace (id' =? id) with false by (symmetry; apply Z.eqb_neq; lia).
      reflexivity.
Qed.

Lemma updateClaimTotals_postings (claimId : Z) (s : db) :
  payment_postings (updateClaimTotals claimId s) = payment_postings s.
Proof.
  unfold updateClaimTotals. now destruct (find_claim claimId s).
Qed.

Lemma updateClaimTotals_other (claimId other : Z) (s : db) :
  other <> claimId ->
  find_claim other (updateClaimTotals claimId s) = find_claim other s.
Proof.
  intro Hne. unfold updateClaimTotals.
  destruct (find_claim claimId s) as [c|]; [|reflexivity].
  unfold find_claim. simpl. rewrite find_update_where by reflexivity.
  now replace (other =? claimId) with false by (symmetry; apply Z.eqb_neq; lia).
Qed.

(** [updateClaimTotals] establishes the invariant for its claim. *)
Lemma updateClaimTotals_holds (claimId : Z) (s : db) :
  aggregates_hold claimId (updateClaimTotals claimId s).
Proof.
  intros c Hc.
  assert (total_paid claimId (updateClaimTotals claimId s)
          = total_paid claimId s) as Hp.
  { unfold total_paid, postings_of. now rewrite updateClaimTotals_postings. }
  assert (total_adjustments claimId (updateClaimTotals claimId s)
          = total_adjustments claimId s) as Ha.
  { unfold total_adjustments, postings_of.
    now rewrite updateClaimTotals_postings. }
  rewrite Hp, Ha. clear Hp Ha.
  unfold updateClaimTotals in Hc.
  destruct (find_claim claimId s) as [c0|] eqn:E; [|congruence].
  unfold find_claim in Hc, E. simpl in Hc.
  rewrite find_update_where in Hc by reflexivity.
  rewrite Z.eqb_refl, E in Hc. simpl in Hc. inversion Hc; subst c. clear Hc.
  rewrite !or_zero_SUM, !sum_case_when. simpl.
  unfold total_paid, total_adjustments, postings_of. split; reflexivity.
Qed.

End LedgerFacts.

Section PaymentRoutes.
Import Js Store Http Payments Ledger Fixtures Examples.

Lemma find_delete_where {A : Type} (id_of : A -> Z) (id : Z) (t : table A) :
  find_by id_of id (delete_where id_of id t) = None.
Proof.
  unfold find_by, delete_where. simpl.
  induction (rows t) as [|r l IH]; simpl; [reflexivity|].
  destruct (id_of r =? id) eqn:E; simpl; [exact IH|].
  now rewrite E.
Qed.

(** The transaction of a posting establishes the invariant for the
    claim posted to. *)
Lemma insert_and_recompute_holds (value : Payment) (user : user_id)
  (now : Date) (s : db) :
  aggregates_hold (v_claim_id value)
    (snd (insert_and_recompute value user now s)).
Proof.
  unfold insert_and_recompute. simpl. apply updateClaimTotals_holds.
Qed.

Lemma postings_of_insert_other (value : Payment) (user : user_id)
  (now : Date) (s : db) (claimId : Z) (types : PaymentType -> bool) :
  claimId <> v_claim_id value ->
  postings_of claimId types (snd (insert_and_recompute value user now s))
  = postings_of claimId types s.
Proof.
  intro Hne. unfold postings_of, insert_and_recompute. simpl.
  rewrite updateClaimTotals_postings. simpl.
  rewrite filter_app. simpl.
  replace (v_claim_id value =? claimId) with false
    by (symmetry; apply Z.eqb_neq; lia).
  simpl. apply app_nil_r.
Qed.

(** ... and keeps it for every other claim. *)
Lemma insert_and_recompute_frame (value : Payment) (user : user_id)
  (now : Date) (s : db) (claimId : Z) :
  aggregates_hold claimId s ->
  aggregates_hold claimId (snd (insert_and_recompute value user now s)).
Proof.
  intro H. destruct (Z.eq_dec claimId (v_claim_id value)) as [->|Hne].
  - apply insert_and_recompute_holds.
  - intros c Hc. unfold total_paid, total_adjustments.
    rewrite !postings_of_insert_other by exact Hne.
    apply H. revert Hc. unfold insert_and_recompute. simpl.
    now rewrite updateClaimTotals_other by exact Hne.
Qed.

(** After a manual posting commits, the aggregates of the claim posted
    to agree with its postings. *)
Lemma post_payment_holds (user : user_id) (now : Date) (b : PaymentBody)
  (s : db) :
  status (fst (post_payment user now b s)) = 201 ->
  exists value,
    paymentSchema_validate b = inr value /\
    aggregates_hold (v_claim_id value) (snd (post_payment user now b s)).
Proof.
  unfold post_payment.
  destruct (paymentSchema_validate b) as [e|value];
    cbn [fst snd status]; [discriminate|].
  destruct (find_claim (v_claim_id value) s);
    cbn [fst snd status]; [|discriminate].
  pose proof (insert_and_recompute_holds value user now s) as H.
  destruct (insert_and_recompute value user now s) as [paymentId s1].
  intros _. exists value. split; [reflexivity|]. exact H.
Qed.

(** After a deletion commits, the aggregates of the claim the posting
    belonged to agree with its postings. *)
Lemma delete_payment_holds (id : Z) (s : db) (p : PaymentPosting) :
  find_payment id s = Some p ->
  status (fst (delete_payment id s)) = 200 ->
  aggregates_hold (pp_claim_id p) (snd (delete_payment id s)).
Proof.
  unfold delete_payment. intros ->.
  destruct (payment_method_is_ERA (pp_payment_method p)
            && no_poster (pp_posted_by p)); simpl; [discriminate|].
  intros _. apply updateClaimTotals_holds.
Qed.

(** After an update commits, the aggregates of the claim the request
    names agree with its postings. *)
Lemma put_payment_holds (id : Z) (b : PaymentBody) (s : db) :
  status (fst (put_payment id b s)) = 200 ->
  exists value,
    paymentSchema_validate b = inr value /\
    aggregates_hold (v_claim_id value) (snd (put_payment id b s)).
Proof.
  unfold put_payment.
  destruct (find_payment id s) as [p|]; simpl; [|discriminate].
  destruct (payment_method_is_ERA (pp_payment_method p)
            && no_poster (pp_posted_by p)); simpl; [discriminate|].
  destruct (paymentSchema_validate b) as [e|value]; simpl; [discriminate|].
  intros _. exists value. split; [reflexivity|].
  apply updateClaimTotals_holds.
Qed.

(** After a bulk posting, the aggregates of every claim an item was
    posted to agree with its postings. *)
Lemma bulk_item_holds (user : user_id) (now : Date) (payments : list PaymentBody) :
  forall (results : list BulkResult) (s : db),
    (forall cid pid, In (bulk_SUCCESS cid pid) results ->
                     aggregates_hold cid s) ->
    let (results', s') :=
      fold_left (bulk_item user now) payments (results, s) in
    forall cid pid, In (bulk_SUCCESS cid pid) results' ->
                    aggregates_hold cid s'.
Proof.
  induction payments as [|b rest IH]; intros results s Hinv.
  - exact Hinv.
  - cbn [fold_left]. unfold bulk_item at 2.
    destruct (paymentSchema_validate b) as [e|value].
    + apply IH. intros cid pid Hin. apply in_app_or in Hin.
      destruct Hin as [Hin|[Hin|[]]]; [eauto | discriminate].
    + destruct (find_claim (v_claim_id value) s).
      * pose proof (insert_and_recompute_holds value user now s) as Hnew.
        pose proof (insert_and_recompute_frame value user now s) as Hold.
        destruct (insert_and_recompute value user now s) as [pid' s1].
        simpl in Hnew, Hold.
        apply IH. intros cid pid Hin. apply in_app_or in Hin.
        destruct Hin as [Hin|[Hin|[]]].
        -- apply Hold. eauto.
        -- inversion Hin; subst. exact Hnew.
      * apply IH. intros cid pid Hin. apply in_app_or in Hin.
        destruct Hin as [Hin|[Hin|[]]]; [eauto | discriminate].
Qed.

Lemma post_bulk_holds (user : user_id) (now : Date)
  (payments : list PaymentBody) (s : db) (results : list BulkResult) :
  fst (post_bulk user now payments s) = inr results ->
  forall cid pid, In (bulk_SUCCESS cid pid) results ->
                  aggregates_hold cid (snd (post_bulk user now payments s)).
Proof.
  unfold post_bulk. destruct payments as [|b rest]; simpl; [discriminate|].
  pose proof (bulk_item_holds user now (b :: rest) [] s) as H.
  cbn [fold_left] in H.
  destruct (fold_left (bulk_item user now) rest _) as [results' s'].
  simpl. intros E. inversion E; subst. apply H. intros ? ? [].
Qed.


End PaymentRoutes.

Section ImmutablePostings.
Import Js Store Http Payments Ledger Fixtures Examples.



End ImmutablePostings.

(* ------------------------------------------------------------------ *)
(** ** The claim routes                                                *)
(* ------------------------------------------------------------------ *)

Section ClaimRoutes.
Import Js Store Http Claims Ledger Fixtures ClaimRequests.

(** Case analysis along a validation that ended in a value. *)
Ltac validated H :=
  repeat match type of H with
  | context [match ?x with _ => _ end] =>
      lazymatch x with
      | context [match _ with _ => _ end] => fail
      | _ => idtac
      end;
      destruct x eqn:?; simpl in H; try discriminate H
  end.

Lemma lineItemSchema_validate_inr (b : LineItemBody) (item : LineItem) :
  lineItemSchema_validate b = inr item ->
  acceptable b /\ charge_amount item = submitted_charge b.
Proof.
  unfold lineItemSchema_validate, andThen, required, required_string,
    optional_string, acceptable, submitted_charge.
  intro H. validated H; inversion H; subst; simpl;
    repeat match goal with
    | Hn : (_ <? 0) = false |- _ => apply Z.ltb_ge in Hn
    end;
    repeat split; eauto.
Qed.

Lemma items_validate_inr (l : list LineItemBody) :
  forall items : list LineItem,
    items_validate l = inr items ->
    Forall acceptable l /\ sum (map charge_amount items) = submitted_total l
    /\ List.length items = List.length l.
Proof.
  induction l as [|b rest IH]; intros items H; simpl in H.
  - inversion H. repeat split. constructor.
  - unfold andThen in H.
    destruct (lineItemSchema_validate b) as [e|item] eqn:E1;
      [discriminate|].
    destruct (items_validate rest) as [e|items'] eqn:E2; [discriminate|].
    inversion H; subst. clear H.
    destruct (lineItemSchema_validate_inr b item E1) as [Hacc Hch].
    destruct (IH items' eq_refl) as (Hall & Hsum & Hlen).
    repeat split.
    + constructor; assumption.
    + unfold submitted_total in *. simpl. now rewrite Hch, Hsum.
    + simpl. now rewrite Hlen.
Qed.

Lemma claimSchema_validate_inr (b : ClaimBody) (value : ClaimValue) :
  claimSchema_validate b = inr value ->
  exists items,
    b_line_items b = Some items /\ items <> [] /\
    Forall acceptable items /\
    b_unknown_keys b = [] /\
    totalCharges (line_items value) = submitted_total items.
Proof.
  unfold claimSchema_validate, andThen, required, required_string.
  intro H.
  destruct (b_patient_id b); [|discriminate].
  destruct (b_primary_insurance_id b); [|discriminate].
  destruct (b_claim_type b) as [ct|]; [|discriminate].
  destruct (claim_type_of ct); [|discriminate].
  destruct (b_service_date_from b); [|discriminate].
  destruct (b_service_date_to b); [|discriminate].
  destruct (b_primary_diagnosis_code b) as [dx|]; [|discriminate].
  destruct (joi_string 20 dx); [|discriminate].
  destruct (b_place_of_service b) as [ps|]; [|discriminate].
  destruct (joi_string 10 ps); [|discriminate].
  destruct (b_billing_provider_npi b) as [bn|]; [|discriminate].
  destruct (joi_string 20 bn); [|discriminate].
  destruct (b_rendering_provider_npi b) as [rn|]; [|discriminate].
  destruct (joi_string 20 rn); [|discriminate].
  destruct (b_line_items b) as [li|]; [|discriminate].
  destruct (items_validate li) as [e|items] eqn:E; [discriminate|].
  destruct (items_validate_inr li items E) as (Hall & Hsum & Hlen).
  destruct items as [|it items]; [discriminate|].
  destruct (b_unknown_keys b); [|discriminate].
  inversion H; subst; simpl. exists li. repeat split; try assumption.
  - intros ->. discriminate Hlen.
  - unfold totalCharges. rewrite fold_left_add. rewrite <- Hsum. simpl. lia.
Qed.

Lemma find_claim_put (user : user_id) (id : Z) (value : ClaimValue) (s : db)
  (existing : Claim) :
  find_claim id s = Some existing ->
  find_claim id
    (set_claim_line_items
       (insert_line_items id (line_items value)
          (delete_where cli_claim_id id (claim_line_items s)))
       (set_claims (update_where c_id id (updateData value user) (claims s))
          s))
  = Some (updateData value user existing).
Proof.
  intro H. unfold find_claim in *. simpl.
  rewrite find_update_where by reflexivity.
  now rewrite Z.eqb_refl, H.
Qed.




End ClaimRoutes.

Section SubmissionFacts.
Import Js Store Http Claims Fixtures SubmissionExamples.



End SubmissionFacts.

(* ------------------------------------------------------------------ *)
(** ** Remittance processing                                           *)
(* ------------------------------------------------------------------ *)

Section RemittanceSteps.
Import Js Store ERAProcessor Reconciliation Fixtures.

Variable now : Date.

(** On a storage that accepts every request, a detail matched to a
    claim is recorded, posted if auto-posting applies, written to the
    claim, and turned into a denial if its code denotes one. *)
Lemma processERAClaim_matched (eraId : Z) (d : ClaimDetail) (s : db)
  (c : Claim) :
  matched d s = Some c ->
  processERAClaim accepts_all now eraId d s
  = (Returned (auto_increment (era_claim_details s)),
     denied now c d
       (status_updated c d (posted now eraId c d (recorded eraId c d s)))).
Proof.
  unfold matched. intro Hm.
  unfold processERAClaim, bind, Database_findOne_claims,
    Database_create_era_claim_details, call, accepts_all.
  rewrite Hm. cbn [insert fst snd].
  unfold isAutoPostingEnabled, Database_findOne_system_settings, bind, call,
    ret.
  unfold denied, status_updated, posted, recorded, auto_posting_enabled,
    detail_row, denial_row, era_posting.
  cbn [insert fst snd system_settings set_era_claim_details].
  destruct (total_paid_amount d) as [|amount] eqn:Ep.
  - rewrite andb_false_r. cbn [when ret bind].
    unfold Database_update_claims, call, bind. cbn [fst snd].
    destruct (isClaimDenied (claim_status_code d)); reflexivity.
  - cbn [gt_zero].
    destruct (match lookup (system_settings s) "era_auto_posting_enabled" with
              | Some setting_value => strict_eq setting_value "true"
              | None => false
              end && (0 <? amount)) eqn:Eg.
    + unfold when, autoPostPayment, bind, Database_create_payment_postings,
        call, ret. rewrite Ep. cbn [decimal_of insert fst snd].
      unfold Database_update_claims, call. cbn [fst snd].
      destruct (isClaimDenied (claim_status_code d)); reflexivity.
    + cbn [when ret bind].
      unfold Database_update_claims, call, bind. cbn [fst snd].
      destruct (isClaimDenied (claim_status_code d)); reflexivity.
Qed.

Lemma matched_is_stored (d : ClaimDetail) (s : db) (c : Claim) :
  matched d s = Some c ->
  exists c0, find_claim (c_id c) s = Some c0.
Proof.
  unfold matched, find_claim, find_by. intro H.
  apply find_some in H. destruct H as [Hin _].
  induction (rows (Store.claims s)) as [|r l IH]; [contradiction|].
  simpl. destruct (c_id r =? c_id c) eqn:E; [eauto|].
  destruct Hin as [->|Hin]; [|auto].
  now rewrite Z.eqb_refl in E.
Qed.

Lemma claims_posted (eraId : Z) (c : Claim) (d : ClaimDetail) (s : db) :
  Store.claims (posted now eraId c d (recorded eraId c d s)) = Store.claims s.
Proof.
  unfold posted, recorded.
  destruct (total_paid_amount d); [reflexivity|].
  destruct (_ && _); reflexivity.
Qed.

Lemma denials_posted (eraId : Z) (c : Claim) (d : ClaimDetail) (s : db) :
  denials (status_updated c d (posted now eraId c d (recorded eraId c d s)))
  = denials s.
Proof.
  unfold status_updated, posted, recorded.
  destruct (total_paid_amount d); [reflexivity|].
  destruct (_ && _); reflexivity.
Qed.

Lemma postings_denied (c : Claim) (d : ClaimDetail) (s : db) :
  payment_postings (denied now c d (status_updated c d s))
  = payment_postings s.
Proof.
  unfold denied, status_updated.
  destruct (isClaimDenied (claim_status_code d)); reflexivity.
Qed.

(** The claim a detail is matched to, after the detail is processed. *)
Lemma matched_claim_after (eraId : Z) (d : ClaimDetail) (s : db) (c : Claim) :
  matched d s = Some c ->
  exists c0,
    find_claim (c_id c) s = Some c0 /\
    find_claim (c_id c)
      (snd (processERAClaim accepts_all now eraId d s))
    = Some (set_remittance_result
              (mapERAStatusToClaimStatus (claim_status_code d))
              (total_paid_amount d) (patient_responsibility d) c0).
Proof.
  intro Hm. destruct (matched_is_stored d s c Hm) as [c0 Hc0].
  exists c0. split; [exact Hc0|].
  rewrite (processERAClaim_matched eraId d s c Hm). cbn [snd].
  unfold find_claim in *.
  assert (Store.claims
            (denied now c d
               (status_updated c d
                  (posted now eraId c d (recorded eraId c d s))))
          = update_where c_id (c_id c)
              (set_remittance_result
                 (mapERAStatusToClaimStatus (claim_status_code d))
                 (total_paid_amount d) (patient_responsibility d))
              (Store.claims s)) as ->.
  { unfold denied.
    destruct (isClaimDenied (claim_status_code d)); simpl;
      now rewrite claims_posted. }
  rewrite find_update_where by reflexivity.
  now rewrite Z.eqb_refl, Hc0.
Qed.

(** The denials after a matched detail is processed. *)
Lemma denials_after (eraId : Z) (d : ClaimDetail) (s : db) (c : Claim) :
  matched d s = Some c ->
  rows (denials (snd (processERAClaim accepts_all now eraId d s)))
  = if isClaimDenied (claim_status_code d)
    then (rows (denials s)
          ++ [denial_row now (c_id c) d (auto_increment (denials s))])%list
    else rows (denials s).
Proof.
  intro Hm. rewrite (processERAClaim_matched eraId d s c Hm). cbn [snd].
  unfold denied. destruct (isClaimDenied (claim_status_code d)).
  - cbn [denials set_denials insert snd rows]. now rewrite !denials_posted.
  - now rewrite denials_posted.
Qed.

(** The postings after a matched detail is processed. *)
Lemma postings_after (eraId : Z) (d : ClaimDetail) (s : db) (c : Claim) :
  matched d s = Some c ->
  rows (payment_postings (snd (processERAClaim accepts_all now eraId d s)))
  = match total_paid_amount d with
    | Fin amount =>
        if auto_posting_enabled s && (0 <? amount)
        then (rows (payment_postings s)
              ++ [era_posting now (c_id c) eraId d amount
                    (auto_increment (payment_postings s))])%list
        else rows (payment_postings s)
    | NaN => rows (payment_postings s)
    end.
Proof.
  intro Hm. rewrite (processERAClaim_matched eraId d s c Hm). cbn [snd].
  rewrite postings_denied. unfold posted, recorded.
  destruct (total_paid_amount d) as [|amount]; [reflexivity|].
  unfold auto_posting_enabled. cbn [system_settings set_era_claim_details].
  destruct (_ && _); reflexivity.
Qed.

Lemma lookup_unmapped {A : Type} (table : list (string * A)) (key : string) :
  ~ In key (map fst table) -> lookup table key = None.
Proof.
  induction table as [|[k v] rest IH]; simpl; [reflexivity|].
  intro H. destruct (String.eqb k key) eqn:E.
  - apply String.eqb_eq in E. tauto.
  - apply IH. tauto.
Qed.

End RemittanceSteps.

Section StatusMapping.
Import Js Store ERAProcessor Reconciliation Fixtures Examples Segments.



End StatusMapping.

Section AutoPosting.
Import Js Store ERAProcessor Reconciliation Fixtures Examples Segments Ledger.




End AutoPosting.

Section DenialRecords.
Import Js Store ERAProcessor Reconciliation Fixtures Examples Segments.

Lemma includes_listed (codes : list string) (code : option string) :
  includes codes code = true <-> listed codes code.
Proof.
  unfold includes, listed. rewrite existsb_exists. split.
  - intros (r & Hin & Heq). apply strict_eq_true in Heq. eauto.
  - intros (r & -> & Hin). exists r. split; [exact Hin|].
    simpl. apply String.eqb_refl.
Qed.

Lemma categorizeDenial_derived (code : option string) :
  category_derived code (categorizeDenial code).
Proof.
  unfold category_derived, categorizeDenial.
  rewrite <- !includes_listed.
  destruct (includes technicalCodes code),
           (includes clinicalCodes code),
           (includes authorizationCodes code),
           (includes eligibilityCodes code);
    intuition congruence.
Qed.

Lemma getDenialPriority_derived (code : option string) :
  priority_derived code (getDenialPriority code).
Proof.
  unfold priority_derived, getDenialPriority.
  rewrite <- !includes_listed.
  destruct (includes urgentCodes code), (includes highPriorityCodes code);
    intuition congruence.
Qed.



End DenialRecords.

Section FailedIngestion.
Import Js Store ERAProcessor Reconciliation Fixtures Examples Segments.

Variable parseFloat : option string -> number.
Variable readFile : string -> outcome string.
Variable storage_error : db -> request -> option string.
Variable now : Date.

(** One storage call: run it, or stop with the storage's message. *)
Ltac storage_call :=
  match goal with
  | |- context [storage_error ?s ?r] =>
      let E := fresh "E" in
      destruct (storage_error s r) eqn:E; cbn
  end.

Ltac settle :=
  repeat split;
  try reflexivity;
  try (eexists; eexists; eassumption);
  try (left; reflexivity);
  try (right; eexists; split; reflexivity);
  try (eexists; split; reflexivity).

(** What one claim detail does to the remittance tables, whether its
    processing returns or throws. *)
Lemma processERAClaim_effect (eraId : Z) (d : ClaimDetail) (s : db) :
  let (o, s') := processERAClaim storage_error now eraId d s in
  eras s' = eras s /\
  match o with
  | Returned _ =>
      exists r,
        rows (era_claim_details s')
        = (rows (era_claim_details s) ++ [r])%list /\
        recorded_detail r = d
  | Thrown e =>
      from_storage storage_error e /\
      (rows (era_claim_details s') = rows (era_claim_details s) \/
       exists r,
         rows (era_claim_details s')
         = (rows (era_claim_details s) ++ [r])%list /\
         recorded_detail r = d)
  end.
Proof.
  unfold from_storage.
  unfold processERAClaim, bind, Database_findOne_claims,
    Database_create_era_claim_details, isAutoPostingEnabled,
    Database_findOne_system_settings, Database_update_claims,
    createDenialRecord, Database_create_denials, autoPostPayment,
    Database_create_payment_postings, when, call, bind, ret, throw.
  destruct d as [cn code tc tp pr descr pn sf st].
  destruct tp as [|amount]; cbn; rewrite ?andb_false_r; cbn;
    repeat (first
      [ storage_call
      | match goal with
        | |- context [find ?f ?l] => destruct (find f l); cbn
        | |- context [isClaimDenied ?c] => destruct (isClaimDenied c); cbn
        | |- context [if ?b then _ else _] => destruct b; cbn
        end ]; rewrite ?andb_false_r; cbn);
    settle.
Qed.

(** What the loop over the claim details does to the remittance
    tables: the details of a prefix of the list are recorded. *)
Lemma forEach_effect (eraId : Z) (l : list ClaimDetail) :
  forall s : db,
    let (o, s') := forEach (processERAClaim storage_error now eraId) l s in
    eras s' = eras s /\
    exists (k : nat) (extra : list EraClaimDetail),
      rows (era_claim_details s')
      = (rows (era_claim_details s) ++ extra)%list /\
      map recorded_detail extra = firstn k l /\
      match o with
      | Returned _ => k = List.length l
      | Thrown e => from_storage storage_error e
      end.
Proof.
  induction l as [|d rest IH]; intro s.
  - simpl. split; [reflexivity|]. exists 0%nat, [].
    now rewrite app_nil_r.
  - cbn [forEach]. unfold bind.
    pose proof (processERAClaim_effect eraId d s) as H1.
    destruct (processERAClaim storage_error now eraId d s) as [[id|e] s1].
    + destruct H1 as [He (r & Hr & Hd)].
      specialize (IH s1).
      destruct (forEach (processERAClaim storage_error now eraId) rest s1)
        as [o s'].
      destruct IH as [He' (k & extra & Hrows & Hmap & Ho)].
      split; [congruence|].
      exists (S k), (r :: extra). repeat split.
      * rewrite Hrows, Hr. now rewrite <- app_assoc.
      * simpl. now rewrite Hd, Hmap.
      * destruct o; [simpl; now rewrite Ho | exact Ho].
    + destruct H1 as [He [Hfrom [Hrows|(r & Hr & Hd)]]].
      * split; [exact He|]. exists 0%nat, [].
        repeat split; [now rewrite app_nil_r | exact Hfrom].
      * split; [exact He|]. exists 1%nat, [r].
        repeat split; [exact Hr | simpl; now rewrite Hd | exact Hfrom].
Qed.


End FailedIngestion.

Section PartialIngestion.
Import Js Store ERAProcessor Reconciliation Fixtures Examples Segments.



End PartialIngestion.

(* ------------------------------------------------------------------ *)
(** ** The scenarios of the specification, run                         *)
(* ------------------------------------------------------------------ *)

Section Scenarios.
Import Js Store ERAProcessor Reconciliation Fixtures Examples Segments.

(** The parser on a remittance with two claims. *)
Example parse_two_claim_remittance :
  parseERAFile readAmount two_claim_remittance
  = mkEraData (Some "ERA0002") "" (Some "ACME HEALTH") ""
      (Some "2024-03-15") (Fin 65000)
      [ mkClaimDetail (Some "CLM1") (Some "1") (Fin 50000) (Fin 45000)
          (Fin 5000) "Processed as Primary" (Some "JOHN DOE")
          (Some (Some "2024-03-01")) (Some (Some "2024-03-02"));
        mkClaimDetail (Some "CLM2") (Some "4") (Fin 30000) (Fin 0) (Fin 0)
          "Denied" (Some "JANE ROE") (Some None) None ].
Proof. vm_compute. reflexivity. Qed.

(** Scenario A: one CLP CLM1*1*500.00*500.00*0.00 for claim CLM1 with
    charges 500.00 and no posting. *)
Example scenario_A :
  let run :=
    processERAFile readAmount
      (one_file "era/A.835" "CLP*CLM1*1*500.00*500.00*0.00")
      accepts_all (noon 19710) "era/A.835" "A.835" (one_claim "CLM1" 50000) in
  fst run = Success 1 /\
  option_map c_total_paid (find_claim 1 (snd run)) = Some (Fin 50000) /\
  option_map c_patient_responsibility (find_claim 1 (snd run))
  = Some (Fin 0) /\
  option_map c_claim_status (find_claim 1 (snd run)) = Some PAID /\
  rows (denials (snd run)) = [] /\
  map e_processing_status (rows (eras (snd run))) = [POSTED].
Proof. vm_compute. repeat split. Qed.

(** Scenario C: the auto-posting flag is disabled and the detail pays
    150.00. *)
Example scenario_C :
  let run :=
    processERAFile readAmount
      (one_file "era/C.835" "CLP*CLM1*1*500.00*150.00*0.00")
      accepts_all (noon 19710) "era/C.835" "C.835" posting_disabled in
  fst run = Success 1 /\
  rows (payment_postings (snd run)) = rows (payment_postings posting_disabled)
  /\
  option_map c_claim_status (find_claim 1 (snd run)) = Some PAID.
Proof. vm_compute. repeat split. Qed.

End Scenarios.

(* ------------------------------------------------------------------ *)
(** ** More on the remittance parser                                   *)
(* ------------------------------------------------------------------ *)

Section ParserHeader.
Import Js ERAProcessor Segments Header Fixtures.

Variable parseFloat : option string -> number.

Lemma length_8 (s : string) :
  String.length s = 8%nat ->
  exists a b c d e f g h,
    s = String a (String b (String c (String d (String e (String f
          (String g (String h EmptyString))))))).
Proof.
  intro H.
  do 8 (destruct s as [|? s]; [discriminate H|]).
  destruct s; [|discriminate H].
  repeat eexists.
Qed.

(** The date token of a segment is read as a date exactly when it has
    eight characters; the ISO text handed to [Date] then has ten
    characters and, its two hyphens left out, is the token again. *)
Theorem parseX12Date_round_trip (token : option string) :
  (parseX12Date token = None <->
   token = None \/ exists s, token = Some s /\ String.length s <> 8%nat) /\
  (forall iso,
     parseX12Date token = Some iso ->
     String.length iso = 10%nat /\
     String.get 4 iso = Some "-"%char /\
     String.get 7 iso = Some "-"%char /\
     token = Some (digits_of_iso iso)).
Proof.
  split.
  - unfold parseX12Date. destruct token as [s|]; [|intuition].
    destruct (Nat.eqb (String.length s) 8) eqn:E.
    + apply Nat.eqb_eq in E. destruct (length_8 s E) as (a&b&c&d&e&f&g&h&->).
      simpl. split; [discriminate|].
      intros [H|(s' & H1 & H2)]; [discriminate|].
      inversion H1; subst. simpl in H2. congruence.
    + rewrite orb_true_r. split; [|reflexivity]. intros _. right.
      exists s. split; [reflexivity|]. now apply Nat.eqb_neq.
  - intro iso. unfold parseX12Date. destruct token as [s|]; [|discriminate].
    destruct (Nat.eqb (String.length s) 8) eqn:E.
    + apply Nat.eqb_eq in E. destruct (length_8 s E) as (a&b&c&d&e&f&g&h&->).
      simpl. intro H. inversion H; subst. repeat split.
    + rewrite orb_true_r. discriminate.
Qed.

Lemma parseX12Date_round_trip_witness :
  parseX12Date (Some "20240115") = Some "2024-01-15" /\
  digits_of_iso "2024-01-15" = "20240115" /\
  parseX12Date (Some "240115") = None.
Proof.
  destruct (parseX12Date_round_trip (Some "20240115")) as [_ Hsome].
  destruct (parseX12Date_round_trip (Some "240115")) as [[_ Hnone] _].
  split; [reflexivity|]. split.
  - destruct (Hsome "2024-01-15" eq_refl) as (_ & _ & _ & H).
    now inversion H.
  - apply Hnone. right. exists "240115". split; [reflexivity|].
    cbn. discriminate.
Defined.

Lemma parseLine_not_consumed (st : EraData * option ClaimDetail)
  (line : string) :
  is_consumed line = false -> parseLine parseFloat st line = st.
Proof.
  destruct st as [d cur].
  unfold is_consumed, consumed_tags, has_tag, field, parseLine.
  cbv beta zeta. cbn [existsb].
  generalize (nth_error (split STAR line) 0). intros t H.
  rewrite orb_false_r in H.
  repeat (apply orb_false_elim in H; destruct H as [? H]).
  repeat match goal with
  | E : strict_eq t _ = false |- _ => rewrite E; clear E
  end.
  reflexivity.
Qed.

Lemma fold_parseLine_consumed (lines : list string) :
  forall st : EraData * option ClaimDetail,
    fold_left (parseLine parseFloat) lines st
    = fold_left (parseLine parseFloat) (filter is_consumed lines) st.
Proof.
  induction lines as [|l rest IH]; intro st; [reflexivity|].
  cbn [fold_left filter]. destruct (is_consumed l) eqn:E.
  - cbn [fold_left]. apply IH.
  - rewrite parseLine_not_consumed by exact E. apply IH.
Qed.

(** Records with a tag the parser does not consume are ignored: two
    inputs with the same BPR, TRN, N1, CLP, NM1 and DTM records, in the
    same order, parse to the same result. *)
Theorem other_segments_are_ignored (fileContent fileContent' : string) :
  filter is_consumed (split LF fileContent)
  = filter is_consumed (split LF fileContent') ->
  parseERAFile parseFloat fileContent = parseERAFile parseFloat fileContent'.
Proof.
  intro H. unfold parseERAFile.
  rewrite (fold_parseLine_consumed (split LF fileContent)).
  rewrite (fold_parseLine_consumed (split LF fileContent')).
  now rewrite H.
Qed.

Ltac split_on_tag t :=
  repeat match goal with
  | |- context [String.eqb t ?lit] =>
      let E := fresh "E" in
      destruct (String.eqb t lit) eqn:E;
      [ apply String.eqb_eq in E; subst t; simpl | ]
  end.

Lemma parseLine_header (d : EraData) (cur : option ClaimDetail)
  (line : string) :
  header (fst (parseLine parseFloat (d, cur) line))
  = header_step parseFloat (header d) line.
Proof.
  unfold header_step, is_N1_PR, has_tag, field, parseLine.
  cbv beta zeta.
  generalize (nth_error (split STAR line) 1) (nth_error (split STAR line) 2)
             (nth_error (split STAR line) 3) (nth_error (split STAR line) 4)
             (nth_error (split STAR line) 5) (nth_error (split STAR line) 16).
  intros f1 f2 f3 f4 f5 f16.
  destruct (nth_error (split STAR line) 0) as [t|]; simpl; [|reflexivity].
  split_on_tag t;
    destruct cur as [c|]; simpl;
    destruct f1 as [q|]; simpl;
    try split_on_tag q;
    reflexivity.
Qed.

Lemma fold_parseLine_header (lines : list string) :
  forall (d : EraData) (cur : option ClaimDetail),
    header (fst (fold_left (parseLine parseFloat) lines (d, cur)))
    = fold_left (header_step parseFloat) lines (header d).
Proof.
  induction lines as [|l rest IH]; intros d cur; [reflexivity|].
  cbn [fold_left]. rewrite <- parseLine_header with (cur := cur).
  destruct (parseLine parseFloat (d, cur) l) as [d1 cur1]. apply IH.
Qed.

Lemma fold_last {A : Type} (p : string -> bool) (f : string -> A) (init : A)
  (lines : list string) :
  forall found : option string,
    fold_left (fun acc l => if p l then f l else acc) lines
      (match found with Some l0 => f l0 | None => init end)
    = match fold_left (fun acc l => if p l then Some l else acc) lines found
      with
      | Some l => f l
      | None => init
      end.
Proof.
  induction lines as [|l rest IH]; intro found; [reflexivity|].
  cbn [fold_left]. destruct (p l); [apply (IH (Some l)) | apply IH].
Qed.

Lemma tags_differ (line : string) :
  (has_tag "BPR" line = true -> has_tag "TRN" line = false /\
                                 is_N1_PR line = false) /\
  (has_tag "TRN" line = true -> is_N1_PR line = false).
Proof.
  unfold is_N1_PR, has_tag. split; intro H; apply strict_eq_true in H;
    rewrite H; simpl; auto.
Qed.

Lemma fold_header_step (lines : list string) :
  forall h : EraData,
    let h' := fold_left (header_step parseFloat) lines h in
    era_number h'
    = fold_left (fun acc l => if has_tag "TRN" l then field l 2%nat else acc)
        lines (era_number h) /\
    payer_name h'
    = fold_left (fun acc l => if is_N1_PR l then field l 2%nat else acc)
        lines (payer_name h) /\
    check_date h'
    = fold_left (fun acc l => if has_tag "BPR" l
                              then parseX12Date (field l 16%nat) else acc)
        lines (check_date h) /\
    check_amount h'
    = fold_left (fun acc l => if has_tag "BPR" l
                              then parseFloat (field l 2%nat) else acc)
        lines (check_amount h) /\
    payer_id h' = payer_id h /\
    check_number h' = check_number h /\
    claims h' = claims h.
Proof.
  induction lines as [|l rest IH]; intro h; [repeat split|].
  cbn [fold_left]. cbv zeta.
  destruct (IH (header_step parseFloat h l))
    as (H1 & H2 & H3 & H4 & H5 & H6 & H7).
  rewrite H1, H2, H3, H4, H5, H6, H7. clear.
  unfold header_step. destruct (tags_differ l) as [T1 T2].
  destruct (has_tag "BPR" l).
  - destruct (T1 eq_refl) as [-> ->]. repeat split.
  - destruct (has_tag "TRN" l).
    + rewrite (T2 eq_refl). repeat split.
    + destruct (is_N1_PR l); repeat split.
Qed.

(** The header of the result is read off the last TRN, N1(PR) and BPR
    records of the input, whatever claim segments lie between them; the
    payer id and the check number are never filled in. *)
Theorem header_comes_from_last_segments (fileContent : string) :
  header (parseERAFile parseFloat fileContent)
  = header_of parseFloat (split LF fileContent).
Proof.
  unfold parseERAFile.
  pose proof (fold_parseLine_header (split LF fileContent) emptyEraData None)
    as H.
  destruct (fold_left (parseLine parseFloat) _ _) as [d cur].
  cbn [fst] in H.
  assert (header (match cur with Some c => push_claim c d | None => d end)
          = header d) as -> by (destruct cur; reflexivity).
  rewrite H.
  destruct (fold_header_step (split LF fileContent) (header emptyEraData))
    as (H1 & H2 & H3 & H4 & H5 & H6 & H7).
  set (h := fold_left _ _ _) in *.
  unfold header_of, last_such.
  rewrite <- (fold_last (has_tag "TRN") (fun l => field l 2%nat) (Some "")
                (split LF fileContent) None).
  rewrite <- (fold_last is_N1_PR (fun l => field l 2%nat) (Some "")
                (split LF fileContent) None).
  rewrite <- (fold_last (has_tag "BPR")
                (fun l => parseX12Date (field l 16%nat)) None
                (split LF fileContent) None).
  rewrite <- (fold_last (has_tag "BPR")
                (fun l => parseFloat (field l 2%nat)) (Fin 0)
                (split LF fileContent) None).
  simpl in H1, H2, H3, H4, H5, H6, H7.
  rewrite <- H1, <- H2, <- H3, <- H4.
  destruct h as [a b c e f g k]. simpl in *. now subst.
Qed.

End ParserHeader.

Section ParserHeaderExamples.
Import Js ERAProcessor Segments Header Fixtures.

Lemma other_segments_are_ignored_witness :
  parseERAFile readAmount "ISA*00
TRN*1*ERA0001
SVC*HC:99213*500.00*450.00
CLP*CLM1*1*500.00*450.00*50.00
SE*5*0001"
  = parseERAFile readAmount "TRN*1*ERA0001
CLP*CLM1*1*500.00*450.00*50.00".
Proof.
  apply (other_segments_are_ignored readAmount). reflexivity.
Defined.

End ParserHeaderExamples.

(* ------------------------------------------------------------------ *)
(** ** The static tables of the remittance processor                   *)
(* ------------------------------------------------------------------ *)

Section StaticTables.
Import Js Store ERAProcessor Reconciliation Footprint.

(** Case analysis on the key a table is read at. *)
Ltac split_on_key k :=
  repeat match goal with
  | |- context [String.eqb ?lit k] =>
      let E := fresh "E" in
      destruct (String.eqb lit k) eqn:E;
      [ apply String.eqb_eq in E; subst k; vm_compute | ]
  end.

Lemma isClaimDenied_codes (code : option string) :
  isClaimDenied code = true <-> code = Some "4" \/ code = Some "23".
Proof.
  unfold isClaimDenied, includes. simpl. rewrite orb_false_r.
  rewrite orb_true_iff. split.
  - intros [H|H]; apply strict_eq_true in H; auto.
  - intros [-> | ->]; auto.
Qed.

(** A denial record is created for exactly the codes whose claim status
    is DENIED or REJECTED. *)
Theorem denial_iff_denied_or_rejected (code : option string) :
  isClaimDenied code = true <->
  mapERAStatusToClaimStatus code = DENIED \/
  mapERAStatusToClaimStatus code = REJECTED.
Proof.
  rewrite isClaimDenied_codes. split.
  - intros [-> | ->]; [left | right]; reflexivity.
  - destruct code as [k|]; [|simpl; intros [H|H]; discriminate H].
    unfold mapERAStatusToClaimStatus, get, claimStatusMap.
    cbn [lookup template].
    split_on_key k; intros [H|H]; try discriminate H; auto.
Qed.

(** The two tables have the same codes: a claim falls back to SUBMITTED
    exactly when its status description is [Unknown Status]. *)
Theorem fallback_iff_unknown_status (code : option string) :
  mapERAStatusToClaimStatus code = SUBMITTED <->
  getClaimStatusDescription code = "Unknown Status".
Proof.
  unfold mapERAStatusToClaimStatus, getClaimStatusDescription, get,
    claimStatusMap, claimStatusDescriptions.
  generalize (template code). intro k. cbn [lookup].
  split_on_key k; split; intro H; try discriminate H; reflexivity.
Qed.

(** The codes that create a denial are in none of the category and
    priority lists: such a denial is always OTHER and MEDIUM. *)
Lemma denied_codes_are_unlisted (code : option string) :
  isClaimDenied code = true ->
  categorizeDenial code = OTHER /\ getDenialPriority code = MEDIUM.
Proof.
  rewrite isClaimDenied_codes. intros [-> | ->]; split; reflexivity.
Qed.

End StaticTables.

(* ------------------------------------------------------------------ *)
(** ** The footprint of a remittance ingestion                         *)
(* ------------------------------------------------------------------ *)

Section IngestionFootprint.
Import Js Store ERAProcessor Reconciliation Footprint.

Variable parseFloat : option string -> number.
Variable readFile : string -> outcome string.
Variable storage_error : db -> request -> option string.
Variable now : Date.

Lemma footprint_refl (s : db) : footprint s s.
Proof.
  unfold footprint. repeat split;
    exists []; (split; [now rewrite app_nil_r | constructor]) ||
    now rewrite app_nil_r.
Qed.

Lemma footprint_trans (s1 s2 s3 : db) :
  footprint s1 s2 -> footprint s2 s3 -> footprint s1 s3.
Proof.
  intros (A1 & A2 & A3 & A4 & A5 & A6 & (ps & A7 & A7') & (ds & A8 & A8')
          & (es & A9))
         (B1 & B2 & B3 & B4 & B5 & B6 & (ps' & B7 & B7') & (ds' & B8 & B8')
          & (es' & B9)).
  unfold footprint. repeat split; try congruence.
  - exists (ps ++ ps')%list. split.
    + now rewrite B7, A7, app_assoc.
    + apply Forall_app. now split.
  - exists (ds ++ ds')%list. split.
    + now rewrite B8, A8, app_assoc.
    + apply Forall_app. now split.
  - exists (es ++ es')%list. now rewrite B9, A9, app_assoc.
Qed.

Lemma keeps_ret {A : Type} (a : A) : keeps (ret a).
Proof. intro s. apply footprint_refl. Qed.

Lemma keeps_throw {A : Type} (message : string) : keeps (@throw A message).
Proof. intro s. apply footprint_refl. Qed.

Lemma keeps_bind {A B : Type} (m : M A) (k : A -> M B) :
  keeps m -> (forall a, keeps (k a)) -> keeps (bind m k).
Proof.
  intros Hm Hk s. unfold bind. specialize (Hm s).
  destruct (m s) as [[a|e] s1]; [|exact Hm].
  apply (footprint_trans s s1); [exact Hm | apply Hk].
Qed.

Lemma keeps_when (c : bool) (m : M Z) :
  (c = true -> keeps m) -> keeps (when c m).
Proof.
  intro H. unfold when. destruct c; [|apply keeps_ret].
  apply keeps_bind; [now apply H | intro; apply keeps_ret].
Qed.

Lemma keeps_forEach {A : Type} (f : A -> M Z) (l : list A) :
  (forall x, keeps (f x)) -> keeps (forEach f l).
Proof.
  intro H. induction l as [|x rest IH]; [apply keeps_ret|].
  cbn [forEach]. apply keeps_bind; [apply H | intro; exact IH].
Qed.

(** A storage call stays within the footprint when its effect does. *)
Lemma keeps_call {A : Type} (req : db -> request) (run : db -> A * db) :
  (forall s, footprint s (snd (run s))) ->
  keeps (call storage_error req run).
Proof.
  intros H s. unfold call. destruct (storage_error s (req s)).
  - apply footprint_refl.
  - specialize (H s). now destruct (run s).
Qed.

Lemma claim_core_update (id : Z) (status : ClaimStatus) (paid resp : number)
  (l : list Claim) :
  map claim_core
      (map (fun r => if c_id r =? id
                     then set_remittance_result status paid resp r else r) l)
  = map claim_core l.
Proof.
  induction l as [|r l IH]; [reflexivity|].
  simpl. rewrite IH. now destruct (c_id r =? id).
Qed.

Lemma processERAClaim_keeps (eraId : Z) (d : ClaimDetail) :
  keeps (processERAClaim storage_error now eraId d).
Proof.
  unfold processERAClaim.
  apply keeps_bind.
  { apply keeps_call. intro s. apply footprint_refl. }
  intro claim. apply keeps_bind.
  { apply keeps_call. intro s. unfold footprint. cbn.
    repeat split; try (exists []; split; [now rewrite app_nil_r|constructor]).
    eexists. reflexivity. }
  intro eraClaimId. destruct claim as [c|]; [|apply keeps_ret].
  apply keeps_bind.
  { unfold isAutoPostingEnabled. apply keeps_bind.
    - apply keeps_call. intro s. apply footprint_refl.
    - intro. apply keeps_ret. }
  intro enabled. apply keeps_bind.
  { apply keeps_when. intro Hc.
    apply andb_true_iff in Hc. destruct Hc as [_ Hpaid].
    unfold autoPostPayment.
    destruct (total_paid_amount d) as [|amount]; [discriminate Hpaid|].
    simpl in Hpaid. apply Z.ltb_lt in Hpaid. cbn [decimal_of].
    apply keeps_call. intro s. unfold footprint. cbn.
    repeat split; try (exists []; split; [now rewrite app_nil_r|constructor]).
    - eexists. split; [reflexivity|].
      constructor; [|constructor]. repeat split. exact Hpaid.
    - exists []. now rewrite app_nil_r. }
  intros _. apply keeps_bind.
  { apply keeps_call. intro s. unfold footprint. cbn.
    repeat split; try (exists []; split; [now rewrite app_nil_r|constructor]).
    - apply claim_core_update.
    - exists []. now rewrite app_nil_r. }
  intros _. apply keeps_bind; [|intro; apply keeps_ret].
  apply keeps_when. intro Hden.
  unfold createDenialRecord. apply keeps_call. intro s.
  destruct (denied_codes_are_unlisted _ Hden) as [Hcat Hpri].
  unfold footprint. cbn [insert snd fst claim_line_items system_settings
    patients patient_insurance insurance_providers Store.claims
    payment_postings denials era_claim_details set_denials rows].
  repeat split; try (exists []; split; [now rewrite app_nil_r|constructor]).
  - eexists. split; [reflexivity|].
    constructor; [|constructor]. repeat split; assumption.
  - exists []. now rewrite app_nil_r.
Qed.

Lemma processERAFile_footprint (filePath fileName : string) (s : db) :
  footprint s
    (snd (processERAFile parseFloat readFile storage_error now filePath
            fileName s)).
Proof.
  unfold processERAFile.
  match goal with
  | |- context [match ?run s with _ => _ end] =>
      assert (keeps run) as H; [|specialize (H s); now destruct (run s) as [[?|?] ?]]
  end.
  apply keeps_bind.
  { intro s0. cbn. apply footprint_refl. }
  intro fileContent. apply keeps_bind.
  { apply keeps_call. intro s0. unfold footprint. cbn.
    repeat split; try (exists []; split; [now rewrite app_nil_r|constructor]).
    exists []. now rewrite app_nil_r. }
  intro eraId. apply keeps_bind.
  { apply keeps_forEach. intro d. apply processERAClaim_keeps. }
  intros _. apply keeps_bind; [|intro; apply keeps_ret].
  apply keeps_call. intro s0. unfold footprint. cbn.
  repeat split; try (exists []; split; [now rewrite app_nil_r|constructor]).
  exists []. now rewrite app_nil_r.
Qed.

End IngestionFootprint.

Section IngestionProperties.
Import Js Store ERAProcessor Reconciliation Footprint Fixtures Examples
  Segments.

Lemma claim_core_fields (l l' : list Claim) :
  map claim_core l' = map claim_core l ->
  map c_id l' = map c_id l /\
  map c_claim_number l' = map c_claim_number l /\
  map c_total_charges l' = map c_total_charges l /\
  map c_submission_date l' = map c_submission_date l /\
  map c_clearinghouse_id l' = map c_clearinghouse_id l.
Proof.
  intro H.
  assert (forall (A : Type) (p : Claim -> A),
            (forall c, p (claim_core c) = p c) ->
            map p l' = map p l) as Hp.
  { intros A p Hc.
    rewrite <- (map_ext (fun c => p (claim_core c)) p Hc l').
    rewrite <- (map_ext (fun c => p (claim_core c)) p Hc l).
    rewrite <- !(map_map claim_core p). now rewrite H. }
  repeat split; apply Hp; reflexivity.
Qed.



End IngestionProperties.

Section IngestionRuns.
Import Js Store ERAProcessor Reconciliation Footprint Fixtures Examples
  Segments.



Variable now : Date.

(** On a storage that accepts every request a claim detail is always
    recorded, with the claim it matches, and the remittances are left
    alone. *)
Lemma processERAClaim_accepted (eraId : Z) (d : ClaimDetail) (s : db) :
  exists s',
    processERAClaim accepts_all now eraId d s
    = (Returned (auto_increment (era_claim_details s)), s') /\
    eras s' = eras s /\
    era_claim_details s'
    = snd (insert (detail_row eraId (matched d s) d) (era_claim_details s)).
Proof.
  destruct (matched d s) as [c|] eqn:Hm.
  - eexists. split; [apply (processERAClaim_matched now eraId d s c Hm)|].
    unfold denied, status_updated, posted, recorded.
    destruct (isClaimDenied (claim_status_code d));
      destruct (total_paid_amount d); try destruct (_ && _);
      split; reflexivity.
  - unfold matched in Hm.
    unfold processERAClaim, bind, Database_findOne_claims,
      Database_create_era_claim_details, call, ret, accepts_all.
    rewrite Hm. cbn [insert fst snd]. eexists. repeat split.
Qed.

Lemma forEach_accepted (eraId : Z) (l : list ClaimDetail) :
  forall s : db,
    exists s' extra,
      forEach (processERAClaim accepts_all now eraId) l s
      = (Returned tt, s') /\
      eras s' = eras s /\
      rows (era_claim_details s')
      = (rows (era_claim_details s) ++ extra)%list /\
      map recorded_detail extra = l /\
      Forall (fun r => ecd_era_id r = eraId) extra.
Proof.
  induction l as [|d rest IH]; intro s.
  - exists s, []. cbn. rewrite app_nil_r. repeat split. constructor.
  - destruct (processERAClaim_accepted eraId d s) as (s1 & Hrun & He & Hd).
    destruct (IH s1) as (s' & extra & Hrest & He' & Hrows & Hmap & Hall).
    exists s', (detail_row eraId (matched d s) d
                  (auto_increment (era_claim_details s)) :: extra).
    cbn [forEach]. unfold bind. rewrite Hrun, Hrest.
    repeat split.
    + congruence.
    + rewrite Hrows, Hd. cbn. now rewrite <- app_assoc.
    + cbn. rewrite Hmap. f_equal. now destruct d.
    + constructor; [reflexivity | exact Hall].
Qed.

Lemma update_fresh {A : Type} (id_of : A -> Z) (id : Z) (f : A -> A)
  (l : list A) :
  Forall (fun r => id_of r <> id) l ->
  map (fun r => if id_of r =? id then f r else r) l = l.
Proof.
  induction 1 as [|r l Hr _ IH]; [reflexivity|].
  simpl. rewrite IH.
  now replace (id_of r =? id) with false by (symmetry; now apply Z.eqb_neq).
Qed.


End IngestionRuns.

Section IngestionRunExamples.
Import Js Store ERAProcessor Reconciliation Footprint Fixtures Examples
  Segments.


End IngestionRunExamples.

(* ------------------------------------------------------------------ *)
(** ** More on the payment routes                                      *)
(* ------------------------------------------------------------------ *)

Section PaymentFacts.
Import Js Store Http Payments Ledger Amounts Fixtures Examples.

Lemma set_claims_twice (t t' : table Claim) (s : db) :
  set_claims t (set_claims t' s) = set_claims t s.
Proof. reflexivity. Qed.

Lemma update_where_twice {A : Type} (id_of : A -> Z) (id : Z) (f g : A -> A)
  (t : table A) :
  (forall r, id_of (g r) = id_of r) ->
  update_where id_of id f (update_where id_of id g t)
  = update_where id_of id (fun r => f (g r)) t.
Proof.
  intro Hid. unfold update_where. simpl. f_equal.
  rewrite map_map. apply map_ext. intro r.
  destruct (id_of r =? id) eqn:E; [|now rewrite E].
  now rewrite Hid, E.
Qed.

Lemma totals_unchanged (claimId : Z) (s : db) :
  total_paid claimId (updateClaimTotals claimId s) = total_paid claimId s /\
  total_adjustments claimId (updateClaimTotals claimId s)
  = total_adjustments claimId s.
Proof.
  unfold total_paid, total_adjustments, postings_of.
  now rewrite updateClaimTotals_postings.
Qed.


Lemma validated_payment (b : PaymentBody) (value : Payment) :
  paymentSchema_validate b = inr value ->
  claim_id b = Some (v_claim_id value) /\
  payment_amount b = Some (v_payment_amount value) /\
  0 <= v_payment_amount value /\
  unknown_keys b = [].
Proof.
  unfold paymentSchema_validate. intro H.
  repeat match type of H with
  | context [match ?x with _ => _ end] =>
      lazymatch x with
      | context [match _ with _ => _ end] => fail
      | _ => idtac
      end;
      destruct x eqn:?; try discriminate H
  end.
  inversion H; subst; simpl. repeat split.
  match goal with
  | Hn : (_ <? 0) = false |- _ => now apply Z.ltb_ge in Hn
  end.
Qed.


Lemma postings_of_insert (value : Payment) (user : user_id) (now : Date)
  (s : db) (types : PaymentType -> bool) :
  Ledger.sum (map pp_payment_amount
                (postings_of (v_claim_id value) types
                   (snd (insert_and_recompute value user now s))))
  = Ledger.sum (map pp_payment_amount
                  (postings_of (v_claim_id value) types s))
    + (if types (v_payment_type value) then v_payment_amount value else 0).
Proof.
  unfold postings_of, insert_and_recompute. cbn [insert snd].
  rewrite updateClaimTotals_postings. cbn.
  rewrite filter_app, map_app. cbn. rewrite Z.eqb_refl. cbn.
  assert (forall l l', Ledger.sum (l ++ l') = Ledger.sum l + Ledger.sum l')
    as Happ.
  { induction l as [|x l IH]; intro l'; simpl; [reflexivity|].
    rewrite IH. lia. }
  rewrite Happ. destruct (types (v_payment_type value)); simpl; lia.
Qed.



Lemma find_app_fresh {A : Type} (id_of : A -> Z) (id : Z) (l : list A)
  (x : A) :
  Forall (fun r => id_of r <> id) l -> id_of x = id ->
  find (fun r => id_of r =? id) (l ++ [x]) = Some x.
Proof.
  intros Hl Hx. induction Hl as [|r l Hr _ IH]; simpl.
  - now rewrite Hx, Z.eqb_refl.
  - now replace (id_of r =? id) with false
      by (symmetry; now apply Z.eqb_neq).
Qed.

Lemma filter_app_fresh {A : Type} (id_of : A -> Z) (id : Z) (l : list A)
  (x : A) :
  Forall (fun r => id_of r <> id) l -> id_of x = id ->
  filter (fun r => negb (id_of r =? id)) (l ++ [x]) = l.
Proof.
  intros Hl Hx. induction Hl as [|r l Hr _ IH]; simpl.
  - now rewrite Hx, Z.eqb_refl.
  - replace (id_of r =? id) with false by (symmetry; now apply Z.eqb_neq).
    simpl. now rewrite IH.
Qed.

Lemma set_totals_stored (c : Claim) (paid resp : number) (p r : number) :
  c_total_paid c = paid -> c_patient_responsibility c = resp ->
  set_totals paid resp (set_totals p r c) = c.
Proof. intros <- <-. now destruct c. Qed.



End PaymentFacts.

Section BulkAndBounds.
Import Js Store Http Payments Ledger Amounts Fixtures Examples ERAProcessor
  Footprint.

Lemma bulk_item_is_post (user : user_id) (now : Date)
  (results : list BulkResult) (s : db) (b : PaymentBody) :
  snd (bulk_item user now (results, s) b) = snd (post_payment user now b s) /\
  List.length (fst (bulk_item user now (results, s) b))
  = S (List.length results).
Proof.
  unfold bulk_item, post_payment.
  destruct (paymentSchema_validate b) as [e|value]; cbn [fst snd].
  - split; [reflexivity|]. rewrite length_app. simpl. lia.
  - destruct (find_claim (v_claim_id value) s); cbn [fst snd].
    + destruct (insert_and_recompute value user now s) as [pid s1].
      cbn [fst snd]. split; [reflexivity|]. rewrite length_app. simpl. lia.
    + split; [reflexivity|]. rewrite length_app. simpl. lia.
Qed.

Lemma fold_bulk_item (user : user_id) (now : Date)
  (payments : list PaymentBody) :
  forall (results : list BulkResult) (s : db),
    snd (fold_left (bulk_item user now) payments (results, s))
    = fold_left (fun s b => snd (post_payment user now b s)) payments s /\
    List.length (fst (fold_left (bulk_item user now) payments (results, s)))
    = (List.length results + List.length payments)%nat.
Proof.
  induction payments as [|b rest IH]; intros results s.
  - cbn. split; [reflexivity | lia].
  - cbn [fold_left].
    destruct (bulk_item_is_post user now results s b) as [Hs Hl].
    destruct (bulk_item user now (results, s) b) as [results1 s1].
    cbn [fst snd] in *. subst s1.
    destruct (IH results1 (snd (post_payment user now b s))) as [H1 H2].
    split; [exact H1|]. rewrite H2, Hl. cbn. lia.
Qed.

Lemma post_bulk_db (user : user_id) (now : Date)
  (payments : list PaymentBody) (s : db) :
  snd (post_bulk user now payments s)
  = fold_left (fun s b => snd (post_payment user now b s)) payments s.
Proof.
  unfold post_bulk. destruct payments as [|b rest].
  - reflexivity.
  - destruct (fold_bulk_item user now (b :: rest) [] s) as [H1 _].
    now destruct (fold_left (bulk_item user now) (b :: rest) ([], s)).
Qed.



Lemma nonneg_after_totals (claimId : Z) (s : db) :
  amounts_nonneg s -> amounts_nonneg (updateClaimTotals claimId s).
Proof.
  unfold amounts_nonneg. now rewrite updateClaimTotals_postings.
Qed.

Lemma post_keeps_nonneg (user : user_id) (now : Date) (b : PaymentBody)
  (s : db) :
  amounts_nonneg s -> amounts_nonneg (snd (post_payment user now b s)).
Proof.
  intro H. unfold post_payment.
  destruct (paymentSchema_validate b) as [e|value] eqn:Hv; [exact H|].
  destruct (find_claim (v_claim_id value) s); [|exact H].
  unfold insert_and_recompute. cbn [insert snd].
  apply nonneg_after_totals. unfold amounts_nonneg in *.
  cbn [payment_postings set_payment_postings rows].
  apply Forall_app. split; [exact H|].
  constructor; [|constructor].
  destruct (validated_payment b value Hv) as (_ & _ & Hpos & _). exact Hpos.
Qed.





End BulkAndBounds.

(* ------------------------------------------------------------------ *)
(** ** More on the claim routes                                        *)
(* ------------------------------------------------------------------ *)

Section ClaimFacts.
Import Js Store Http Claims Ledger Fixtures ClaimRequests ClaimDeletion
  SubmissionExamples.

Lemma rows_insert_line_items (claimId : Z) (items : list LineItem) :
  forall t : table ClaimLineItem,
    exists new,
      rows (insert_line_items claimId items t) = (rows t ++ new)%list /\
      map cli_item new = items /\
      Forall (fun r => cli_claim_id r = claimId) new.
Proof.
  unfold insert_line_items.
  induction items as [|item rest IH]; intro t.
  - exists []. cbn. rewrite app_nil_r. repeat split. constructor.
  - cbn [fold_left].
    destruct (IH (snd (insert
                         (fun id => mkClaimLineItem id claimId item) t)))
      as (new & Hrows & Hmap & Hall).
    exists (mkClaimLineItem (auto_increment t) claimId item :: new).
    split; [|split].
    + rewrite Hrows. cbn [insert snd rows]. now rewrite <- app_assoc.
    + cbn. now rewrite Hmap.
    + constructor; [reflexivity | exact Hall].
Qed.

Lemma filter_all {A : Type} (p : A -> bool) (l : list A) :
  Forall (fun x => p x = true) l -> filter p l = l.
Proof.
  induction 1 as [|x l Hx _ IH]; [reflexivity|].
  simpl. now rewrite Hx, IH.
Qed.

Lemma filter_none {A : Type} (p : A -> bool) (l : list A) :
  Forall (fun x => p x = false) l -> filter p l = [].
Proof.
  induction 1 as [|x l Hx _ IH]; [reflexivity|].
  simpl. now rewrite Hx.
Qed.

Lemma filter_filter_neg {A : Type} (p : A -> bool) (l : list A) :
  filter p (filter (fun x => negb (p x)) l) = [] /\
  filter (fun x => negb (p x)) (filter (fun x => negb (p x)) l)
  = filter (fun x => negb (p x)) l.
Proof.
  induction l as [|x l [IH1 IH2]]; [split; reflexivity|].
  simpl. destruct (p x) eqn:E; simpl; [now split|].
  rewrite E. simpl. rewrite IH2. now split.
Qed.

(** The line items after the line items of [claimId] were deleted and
    [items] inserted for it. *)
Lemma replaced_lines (claimId : Z) (items : list LineItem)
  (t : table ClaimLineItem) :
  let t' := insert_line_items claimId items
              (delete_where cli_claim_id claimId t) in
  map cli_item (filter (fun r => cli_claim_id r =? claimId) (rows t'))
  = items /\
  filter (fun r => negb (cli_claim_id r =? claimId)) (rows t')
  = filter (fun r => negb (cli_claim_id r =? claimId)) (rows t).
Proof.
  cbv zeta.
  destruct (rows_insert_line_items claimId items
              (delete_where cli_claim_id claimId t))
    as (new & Hrows & Hmap & Hall).
  rewrite Hrows. cbn [delete_where rows]. rewrite !filter_app.
  destruct (filter_filter_neg (fun r => cli_claim_id r =? claimId) (rows t))
    as [H1 H2].
  rewrite H1, H2.
  rewrite (filter_all (fun r => cli_claim_id r =? claimId) new).
  2:{ revert Hall. apply Forall_impl. intros r ->. apply Z.eqb_refl. }
  rewrite (filter_none (fun r => negb (cli_claim_id r =? claimId)) new).
  2:{ revert Hall. apply Forall_impl. intros r ->.
      now rewrite Z.eqb_refl. }
  split; [exact Hmap | apply app_nil_r].
Qed.

Lemma put_claim_stored_lines (user : user_id) (id : Z) (b : ClaimBody)
  (s : db) (value : ClaimValue) :
  claimSchema_validate b = inr value ->
  status (fst (put_claim user id b s)) = 200 ->
  map cli_item (lines_of id (snd (put_claim user id b s)))
  = line_items value /\
  lines_of_others id (snd (put_claim user id b s)) = lines_of_others id s.
Proof.
  intros Hv. unfold put_claim. rewrite Hv.
  destruct (find_claim id s) as [existing|]; [|discriminate].
  destruct (is_draft_or_ready (c_claim_status existing)); [|discriminate].
  intros _. cbn [snd negb].
  apply (replaced_lines id (line_items value) (claim_line_items s)).
Qed.





End ClaimFacts.

Section ClaimLifecycle.
Import Js Store Http Claims Ledger Fixtures ClaimRequests ClaimDeletion
  SubmissionExamples.

Lemma totalCharges_sum (items : list LineItem) :
  totalCharges items = sum (map charge_amount items).
Proof. unfold totalCharges. now rewrite fold_left_add. Qed.

Lemma find_app_none {A : Type} (p : A -> bool) (l : list A) (x : A) :
  Forall (fun y => p y = false) l -> p x = true ->
  find p (l ++ [x]) = Some x.
Proof.
  induction 1 as [|y l Hy _ IH]; intro Hx; simpl.
  - now rewrite Hx.
  - rewrite Hy. now apply IH.
Qed.



Lemma find_delete_where_other {A : Type} (id_of : A -> Z) (id id' : Z)
  (t : table A) :
  id' <> id ->
  find_by id_of id' (delete_where id_of id t) = find_by id_of id' t.
Proof.
  intro Hne. unfold find_by, delete_where. simpl.
  induction (rows t) as [|r l IH]; simpl; [reflexivity|].
  destruct (id_of r =? id) eqn:E; simpl.
  - replace (id_of r =? id') with false; [exact IH|].
    symmetry. apply Z.eqb_neq. apply Z.eqb_eq in E. congruence.
  - now rewrite IH.
Qed.


Lemma push_if_grows (c : bool) (msg : string) (errors : list string) :
  errors <> [] -> push_if c msg errors <> [].
Proof.
  destruct c; cbn; [|trivial].
  destruct errors; [congruence | discriminate].
Qed.

Lemma push_if_true (msg : string) (errors : list string) :
  push_if true msg errors <> [].
Proof. destruct errors; discriminate. Qed.


Lemma line_item_errors_grow (lineItems : list ClaimLineItem) :
  forall index errors,
    errors <> [] -> line_item_errors index lineItems errors <> [].
Proof.
  induction lineItems as [|row rest IH]; intros index errors H;
    cbn [line_item_errors].
  - exact H.
  - apply IH. now repeat apply push_if_grows.
Qed.

Lemma line_item_errors_bad (lineItems : list ClaimLineItem) :
  Exists without_positive_charge lineItems ->
  forall index errors, line_item_errors index lineItems errors <> [].
Proof.
  induction 1 as [row rest Hbad | row rest _ IH]; intros index errors;
    cbn [line_item_errors].
  - apply line_item_errors_grow.
    replace (charge_amount (cli_item row) <=? 0) with true
      by (symmetry; now apply Z.leb_le).
    apply push_if_grows, push_if_true.
  - apply IH.
Qed.





End ClaimLifecycle.

(* ------------------------------------------------------------------ *)
(** ** The denial workflow routes                                      *)
(* ------------------------------------------------------------------ *)

Section DenialFacts.
Import Js Store Http Fixtures Denials DenialExamples.

Lemma find_denial_updated (id id' : Z) (f : DenialRow -> DenialRow)
  (t : table DenialRow) :
  (forall r, dr_id (f r) = dr_id r) ->
  find_by dr_id id' (update_where dr_id id f t)
  = if id' =? id then option_map f (find_by dr_id id' t)
    else find_by dr_id id' t.
Proof. intro H. now apply find_update_where. Qed.

Lemma updated_found (id : Z) (t : table DenialRow) (r : DenialRow) :
  find_by dr_id id t = Some r -> updated id t = true.
Proof. unfold updated. now intros ->. Qed.

Lemma updated_update_where (id id' : Z) (f : DenialRow -> DenialRow)
  (t : table DenialRow) :
  (forall r, dr_id (f r) = dr_id r) ->
  updated id' (update_where dr_id id f t) = updated id' t.
Proof.
  intro H. unfold updated. rewrite find_denial_updated by exact H.
  destruct (id' =? id); [|reflexivity].
  now destruct (find_by dr_id id' t).
Qed.

Lemma put_denial_found (user : user_id) (now : Date) (id : Z)
  (b : UpdateBody) (s : desk) (value : Update) (r : DenialRow) :
  updateSchema_validate b = inr value ->
  find_by dr_id id (denial_rows s) = Some r ->
  put_denial user now id b s
  = (mkResponse 200 (success_message "Denial updated successfully"),
     set_denial_rows
       (update_where dr_id id (updateData value user now r) (denial_rows s))
       s).
Proof.
  intros Hv Hf. unfold put_denial.
  now rewrite Hv, Hf, (updated_found id _ r Hf).
Qed.





End DenialFacts.

Section AssignmentFacts.
Import Js Store Http Fixtures Denials DenialExamples.

(** The assignee the assignment routes accept: a nonzero id of a user
    whose role is ADMIN, MANAGER, BILLER or COLLECTOR. *)
Lemma check_assignee_accepts (assigned_to : option Z) (s : desk)
  (assignee : Z) :
  check_assignee assigned_to s = inr assignee <->
  assigned_to = Some assignee /\ assignee <> 0 /\
  exists u,
    find (fun u => u_id u =? assignee) (users s) = Some u /\
    u_role u <> VIEWER.
Proof.
  unfold check_assignee. split.
  - destruct assigned_to as [a|]; [|discriminate].
    destruct (a =? 0) eqn:E0; [discriminate|].
    destruct (find (fun u => u_id u =? a) (users s)) as [u|] eqn:Hu;
      [|discriminate].
    destruct (u_role u) eqn:Hr; cbn; try discriminate;
      intro H; inversion H; subst;
      (split; [reflexivity|]); (split; [now apply Z.eqb_neq|]);
      exists u; rewrite Hr; split; (exact Hu || discriminate).
  - intros (-> & Hne & u & Hu & Hr).
    replace (assignee =? 0) with false by (symmetry; now apply Z.eqb_neq).
    rewrite Hu. destruct (u_role u); try reflexivity. congruence.
Qed.





(** One step of the bulk assignment is the single assignment of that
    denial. *)
Lemma bulk_assign_item_is_assign (user : user_id) (assignee : Z)
  (results : list AssignResult) (s : desk) (denialId : Z) :
  check_assignee (Some assignee) s = inr assignee ->
  bulk_assign_item user assignee (results, s) denialId
  = ((results ++
      [if updated denialId (denial_rows s) then assign_SUCCESS denialId
       else assign_ERROR denialId "Update failed"])%list,
     snd (post_assign user denialId (Some assignee) s)).
Proof.
  intro Hc. unfold bulk_assign_item, post_assign. rewrite Hc.
  now destruct (updated denialId (denial_rows s)).
Qed.

Lemma post_assign_keeps (user : user_id) (id : Z) (assigned_to : option Z)
  (s : desk) :
  users (snd (post_assign user id assigned_to s)) = users s /\
  forall id', updated id' (denial_rows (snd (post_assign user id
                                               assigned_to s)))
              = updated id' (denial_rows s).
Proof.
  unfold post_assign.
  destruct (check_assignee assigned_to s); [now split|].
  destruct (updated id (denial_rows s)); cbn [negb snd]; [|now split].
  split; [reflexivity|]. intro id'.
  cbn [denial_rows set_denial_rows].
  now apply updated_update_where.
Qed.

Lemma check_assignee_users (assigned_to : option Z) (s s' : desk) :
  users s' = users s ->
  check_assignee assigned_to s' = check_assignee assigned_to s.
Proof. unfold check_assignee. now intros ->. Qed.

Lemma fold_bulk_assign_item (user : user_id) (assignee : Z)
  (denial_ids : list Z) :
  forall (results : list AssignResult) (s : desk),
    check_assignee (Some assignee) s = inr assignee ->
    fold_left (bulk_assign_item user assignee) denial_ids (results, s)
    = ((results ++
        map (fun id =>
               if updated id (denial_rows s) then assign_SUCCESS id
               else assign_ERROR id "Update failed") denial_ids)%list,
       fold_left (fun s id => snd (post_assign user id (Some assignee) s))
         denial_ids s).
Proof.
  induction denial_ids as [|id rest IH]; intros results s Hc.
  - cbn. now rewrite app_nil_r.
  - cbn [fold_left map].
    rewrite bulk_assign_item_is_assign by exact Hc.
    destruct (post_assign_keeps user id (Some assignee) s) as [Hu Hupd].
    rewrite IH.
    2:{ rewrite (check_assignee_users _ s _ Hu). exact Hc. }
    rewrite <- app_assoc. cbn [app]. f_equal. f_equal. f_equal.
    apply map_ext. intro id'. now rewrite Hupd.
Qed.



End AssignmentFacts.
